(** * review_code.py: a shallow embedding and its specification

    The script [automation/scripts/review_code.py] extracts the diff of the
    last commit with [git], sends it to a chat-completion endpoint and
    stores the answer in [docs/review_report.md].

    The embedding follows the script function by function.  Everything the
    script reaches through a library call (the process environment, the
    [git] executable, the remote endpoint, the file system, standard
    output) is a field of the record [World]; each function of the script
    is a computation in a state-and-exception monad over that record. *)

From Stdlib Require Import NArith ZArith Strings.String Strings.Ascii Strings.Byte List Lia.
From stdpp Require Import base option list strings gmap.

Set Warnings "-register-all".

Local Open Scope string_scope.
Local Open Scope list_scope.

(** * Python data *)

(** A Python [str] is a sequence of code points. *)
Abbreviation pystr := (list N).

(** An ASCII literal of the script, as a [str]. *)
Definition lit (s : string) : pystr := N_of_ascii <$> list_ascii_of_string s.
Arguments lit : simpl never.

(** The objects a decoded JSON document is made of: what
    [ChatCompletion.create] hands back. *)
Inductive pyval : Type :=
  | PNone
  | PBool (b : bool)
  | PInt (n : Z)
  | PStr (s : pystr)
  | PList (l : list pyval)
  | PDict (d : list (pystr * pyval)).

(** The failures of the [openai] package. *)
Inductive openai_error : Type :=
  | AuthenticationError
  | RateLimitError
  | APIConnectionError
  | InvalidRequestError
  | ServiceUnavailableError
  | APIError.

(** The exceptions that can travel through the script. *)
Inductive exn : Type :=
  | SystemExit (code : Z)
  | CalledProcessError (returncode : Z) (cmd : list string)
  | FileNotFoundError
  | NotADirectoryError
  | IsADirectoryError
  | FileExistsError
  | PermissionError
  | UnicodeDecodeError
  | UnicodeEncodeError
  | KeyError
  | IndexError
  | TypeError
  | OpenAIError (kind : openai_error).

Inductive result (A : Type) : Type :=
  | Ok (a : A)
  | Raise (e : exn).
Arguments Ok {A} a.
Arguments Raise {A} e.

(** ** Subscription [v[k]] *)

Inductive index : Type :=
  | IStr (k : pystr)
  | IInt (i : Z).

Fixpoint dict_get (k : pystr) (d : list (pystr * pyval)) : option pyval :=
  match d with
  | [] => None
  | (k', v) :: d' => if decide (k = k') then Some v else dict_get k d'
  end.

(** Sequence indexing: a negative index counts from the end. *)
Definition seq_get {A : Type} (l : list A) (i : Z) : option A :=
  let n := Z.of_nat (length l) in
  let j := if (i <? 0)%Z then (i + n)%Z else i in
  if (j <? 0)%Z then None else l !! Z.to_nat j.
Arguments seq_get : simpl never.

Definition subscript (v : pyval) (k : index) : result pyval :=
  match v, k with
  | PDict d, IStr k =>
      match dict_get k d with Some x => Ok x | None => Raise KeyError end
  | PDict _, IInt _ => Raise KeyError
  | PList l, IInt i =>
      match seq_get l i with Some x => Ok x | None => Raise IndexError end
  | PStr s, IInt i =>
      match seq_get s i with Some c => Ok (PStr [c]) | None => Raise IndexError end
  | _, _ => Raise TypeError
  end.

(** * UTF-8, the encoding named in [open(..., encoding="utf-8")] *)

Definition byte_of (n : N) : byte :=
  match Byte.of_N n with Some b => b | None => "000"%byte end.

(** A low or high surrogate: a code point that is not a Unicode scalar
    value and that the strict codec refuses. *)
Definition is_surrogate (c : N) : bool := (0xD800 <=? c)%N && (c <=? 0xDFFF)%N.


Definition cont (c : N) (shift : N) : byte :=
  byte_of (N.lor 0x80 (N.land (N.shiftr c shift) 0x3F)).

Definition utf8_encode_char (c : N) : option (list byte) :=
  if (c <? 0x80)%N then Some [byte_of c]
  else if (c <? 0x800)%N then
    Some [byte_of (N.lor 0xC0 (N.shiftr c 6)); cont c 0]
  else if (c <? 0x10000)%N then
    if is_surrogate c then None
    else Some [byte_of (N.lor 0xE0 (N.shiftr c 12)); cont c 6; cont c 0]
  else if (c <? 0x110000)%N then
    Some [byte_of (N.lor 0xF0 (N.shiftr c 18)); cont c 12; cont c 6; cont c 0]
  else None.

Fixpoint utf8_encode (s : pystr) : option (list byte) :=
  match s with
  | [] => Some []
  | c :: s' =>
      match utf8_encode_char c, utf8_encode s' with
      | Some b, Some bs => Some (b ++ bs)
      | _, _ => None
      end
  end.




(** * The world around the script *)

(** What running a command line does, as [subprocess] sees it: the child
    runs to completion with a return code and its decoded standard output,
    or [subprocess] itself fails ([git] is not on the path, the output is
    not valid in the locale's encoding, ...). *)
Inductive completed : Type :=
  | Completed (returncode : Z) (stdout : pystr)
  | SpawnFailed (e : exn).

Record message : Type := Message { role : pystr; content : pystr }.

Record request : Type := Request { model : pystr; messages : list message }.

(** What the remote call does: it returns the decoded response object or
    raises. *)
Inductive api_result : Type :=
  | ApiReturns (response : pyval)
  | ApiRaises (e : exn).

Inductive node : Type :=
  | Dir
  | File (data : list byte).

(** The library calls that cross the boundary of the process, in the
    order in which they are made. *)
Inductive event : Type :=
  | EvPrint (line : pystr)
  | EvSpawn (argv : list string)
  | EvApiCall (req : request)
  | EvMakedirs (path : string)
  | EvOpen (path : string)
  | EvWrite (path : string).

Record World : Type := mkWorld {
  environ : gmap string pystr;
  proc : list string -> completed;
  api : request -> api_result;
  fs : gmap string node;
  trace : list event
}.

Definition log (e : event) (w : World) : World :=
  mkWorld (environ w) (proc w) (api w) (fs w) (trace w ++ [e]).

Definition set_fs (f : gmap string node) (w : World) : World :=
  mkWorld (environ w) (proc w) (api w) f (trace w).

(** * The monad of the script: state and exceptions *)

Definition M (A : Type) : Type := World -> result A * World.

Definition ret {A : Type} (a : A) : M A := fun w => (Ok a, w).

Definition raise {A : Type} (e : exn) : M A := fun w => (Raise e, w).

Definition bind {A B : Type} (c : M A) (k : A -> M B) : M B :=
  fun w =>
    match c w with
    | (Ok a, w') => k a w'
    | (Raise e, w') => (Raise e, w')
    end.

(** [try: body except: handler].  The handler answers [None] for an
    exception its [except] clause does not name, which then goes on
    travelling.  What the body did before it raised stays done. *)
Definition try_except {A : Type} (body : M A) (handler : exn -> option (M A)) : M A :=
  fun w =>
    match body w with
    | (Ok a, w') => (Ok a, w')
    | (Raise e, w') =>
        match handler e with
        | Some h => h w'
        | None => (Raise e, w')
        end
    end.

Declare Scope py_scope.
Delimit Scope py_scope with py.
Notation "'let*' x ':=' c 'in' k" := (bind c (fun x => k))
  (at level 10, x name, c at level 100, k at level 200) : py_scope.
Notation "c ';;' k" := (bind c (fun _ => k))
  (at level 100, k at level 200, right associativity) : py_scope.
Local Open Scope py_scope.

(** * The library calls the script makes *)

Definition emit (e : event) : M unit := fun w => (Ok tt, log e w).

(** [print(line)] *)
Definition print (line : pystr) : M unit := emit (EvPrint line).

(** [os.getenv(name)] *)
Definition os_getenv (name : string) : M (option pystr) :=
  fun w => (Ok (environ w !! name), w).

(** Truth value of what [os.getenv] returns: [None] and [""] are false. *)
Definition truthy (v : option pystr) : bool :=
  match v with
  | None => false
  | Some [] => false
  | Some (_ :: _) => true
  end.

(** [sys.exit(code)] *)
Definition sys_exit {A : Type} (code : Z) : M A := raise (SystemExit code).

(** [subprocess.check_output(argv, universal_newlines=True)]: a return
    code other than zero becomes a [CalledProcessError]. *)
Definition check_output (argv : list string) : M pystr :=
  emit (EvSpawn argv) ;;
  fun w =>
    match proc w argv with
    | Completed rc out =>
        if (rc =? 0)%Z then (Ok out, w) else (Raise (CalledProcessError rc argv), w)
    | SpawnFailed e => (Raise e, w)
    end.
Arguments check_output : simpl never.

(** [ChatCompletion.create(model=..., messages=...)] *)
Definition ChatCompletion_create (mdl : pystr) (msgs : list message) : M pyval :=
  let req := Request mdl msgs in
  emit (EvApiCall req) ;;
  fun w =>
    match api w req with
    | ApiReturns response => (Ok response, w)
    | ApiRaises e => (Raise e, w)
    end.

(** An expression that touches nothing outside, as a step of the script. *)
Definition lift {A : Type} (r : result A) : M A := fun w => (r, w).

(** [os.makedirs(path, exist_ok=...)] for a path of one component, which
    is all the script asks for: the directory is made when nothing is
    there, an existing directory is accepted under [exist_ok], anything
    else at that name is a [FileExistsError]. *)
Definition os_makedirs (path : string) (exist_ok : bool) : M unit :=
  emit (EvMakedirs path) ;;
  fun w =>
    match fs w !! path with
    | None => (Ok tt, set_fs (<[path := Dir]> (fs w)) w)
    | Some Dir => if exist_ok then (Ok tt, w) else (Raise FileExistsError, w)
    | Some (File _) => (Raise FileExistsError, w)
    end.

Fixpoint dirname_aux (p : list ascii) : option (list ascii) :=
  match p with
  | [] => None
  | c :: p' =>
      match dirname_aux p' with
      | Some d => Some (c :: d)
      | None => if decide (c = "/"%char) then Some [] else None
      end
  end.

(** [os.path.dirname]: what stands before the last slash. *)
Definition dirname (p : string) : string :=
  match dirname_aux (list_ascii_of_string p) with
  | Some d => string_of_list_ascii d
  | None => ""
  end.

(** [open(path, "w", encoding="utf-8")]: the containing directory must be
    there, the name must not be a directory; the file is created or
    truncated. *)
Definition open_w (path : string) : M unit :=
  emit (EvOpen path) ;;
  fun w =>
    let parent := dirname path in
    match (if decide (parent = "") then Some Dir else fs w !! parent) with
    | None => (Raise FileNotFoundError, w)
    | Some (File _) => (Raise NotADirectoryError, w)
    | Some Dir =>
        match fs w !! path with
        | Some Dir => (Raise IsADirectoryError, w)
        | _ => (Ok tt, set_fs (<[path := File []]> (fs w)) w)
        end
    end.

Definition append_data (path : string) (bs : list byte) (f : gmap string node)
  : gmap string node :=
  match f !! path with
  | Some (File old) => <[path := File (old ++ bs)]> f
  | _ => <[path := File bs]> f
  end.

(** [file.write(v)] on a text file opened as above: [v] must be a [str],
    which is encoded strictly.  The line separator of the platform is
    taken to be ["\n"], as on POSIX, where text mode writes every
    character as it is. *)
Definition file_write (path : string) (v : pyval) : M unit :=
  emit (EvWrite path) ;;
  match v with
  | PStr s =>
      match utf8_encode s with
      | Some bs => fun w => (Ok tt, set_fs (append_data path bs (fs w)) w)
      | None => raise UnicodeEncodeError
      end
  | _ => raise TypeError
  end.

(** * The script *)

Definition empty_tree : string := "4b825dc642cb6eb9a060e54bf8d69288fbee4904".

Definition rev_parse_parent : list string := ["git"; "rev-parse"; "HEAD~1"].
Definition diff_parent_head : list string := ["git"; "diff"; "HEAD~1"; "HEAD"].
Definition diff_empty_head : list string := ["git"; "diff"; empty_tree; "HEAD"].

Definition get_diff : M pystr :=
  try_except
    (check_output rev_parse_parent ;;
     let* diff := check_output diff_parent_head in
     ret diff)
    (fun e =>
       match e with
       | CalledProcessError _ _ =>
           Some (let* diff := check_output diff_empty_head in ret diff)
       | _ => None
       end).

Definition nl : pystr := [10%N].

(** The f-string of [review_code]. *)
Definition build_prompt (diff : pystr) : pystr :=
  nl ++ lit "You are an expert code reviewer. Please review the following code diff and provide a detailed review covering:" ++ nl
     ++ lit "- Positive aspects" ++ nl
     ++ lit "- Areas for improvement" ++ nl
     ++ lit "- Potential bugs or issues" ++ nl
     ++ nl
     ++ lit "Code Diff:" ++ nl
     ++ diff ++ nl
     ++ nl
     ++ lit "Please output your review in Markdown format." ++ nl.
Arguments build_prompt : simpl never.

Definition review_request (diff : pystr) : request :=
  Request (lit "gpt-4")
    [Message (lit "system") (lit "You are an expert code reviewer.");
     Message (lit "user") (build_prompt diff)].

(** [response['choices'][0]['message']['content']] *)
Definition first_choice_content (response : pyval) : result pyval :=
  match subscript response (IStr (lit "choices")) with
  | Ok choices =>
      match subscript choices (IInt 0) with
      | Ok choice =>
          match subscript choice (IStr (lit "message")) with
          | Ok msg => subscript msg (IStr (lit "content"))
          | Raise e => Raise e
          end
      | Raise e => Raise e
      end
  | Raise e => Raise e
  end.

Definition review_code (diff : pystr) : M pyval :=
  let prompt := build_prompt diff in
  let* response :=
    ChatCompletion_create (lit "gpt-4")
      [Message (lit "system") (lit "You are an expert code reviewer.");
       Message (lit "user") prompt] in
  lift (first_choice_content response).

Definition file_path : string := "docs/review_report.md".

Definition save_review (review : pyval) : M unit :=
  os_makedirs "docs" true ;;
  open_w file_path ;;
  file_write file_path review ;;
  print (lit "Review report saved to " ++ lit file_path).

Definition main : M unit :=
  let* key := os_getenv "OPENAI_API_KEY" in
  (if negb (truthy key) then
     print (lit "Error: OPENAI_API_KEY is not set in environment variables.") ;;
     sys_exit 1
   else ret tt) ;;
  print (lit "Obtaining git diff...") ;;
  let* diff := get_diff in
  print (lit "Generating code review via OpenAI...") ;;
  let* review := review_code diff in
  save_review review ;;
  print (9989%N :: lit " Code review completed successfully!").

(** The status with which the interpreter leaves [main()]: 0 when it
    returns, the argument of [sys.exit], 1 for any other exception. *)
Definition exit_status (r : result unit) : Z :=
  match r with
  | Ok _ => 0
  | Raise (SystemExit code) => code
  | Raise _ => 1
  end.

Definition run (w : World) : Z * World :=
  let (r, w') := main w in (exit_status r, w').


(** * Reading a trace *)

(** What a computation added to the trace of the world it started in. *)
Definition events_since (w w' : World) : list event :=
  drop (length (trace w)) (trace w').

Definition is_spawn (e : event) : bool :=
  match e with EvSpawn _ => true | _ => false end.

Definition is_api_call (e : event) : bool :=
  match e with EvApiCall _ => true | _ => false end.

Definition is_file_op (e : event) : bool :=
  match e with EvMakedirs _ | EvOpen _ | EvWrite _ => true | _ => false end.

Definition count (p : event -> bool) (t : list event) : nat :=
  length (List.filter p t).

(** * Names for what the theorems talk about *)

Definition prompt_head : pystr :=
  nl ++ lit "You are an expert code reviewer. Please review the following code diff and provide a detailed review covering:" ++ nl
     ++ lit "- Positive aspects" ++ nl
     ++ lit "- Areas for improvement" ++ nl
     ++ lit "- Potential bugs or issues" ++ nl
     ++ nl
     ++ lit "Code Diff:" ++ nl.

Definition prompt_tail : pystr :=
  nl ++ nl ++ lit "Please output your review in Markdown format." ++ nl.

(** The shape [review_code] reads: a dictionary with a list under
    ["choices"], whose first element is a dictionary with a dictionary
    under ["message"], which has an entry ["content"]. *)
Definition well_formed (response : pyval) : bool :=
  match response with
  | PDict d =>
      match dict_get (lit "choices") d with
      | Some (PList (PDict c :: _)) =>
          match dict_get (lit "message") c with
          | Some (PDict m) =>
              match dict_get (lit "content") m with
              | Some _ => true
              | None => false
              end
          | _ => false
          end
      | _ => false
      end
  | _ => false
  end.

Definition lookup_failure (e : exn) : bool :=
  match e with
  | KeyError | IndexError | TypeError => true
  | _ => false
  end.

Definition saved_line : pystr := lit "Review report saved to " ++ lit file_path.


Definition msg_no_key : pystr :=
  lit "Error: OPENAI_API_KEY is not set in environment variables.".
Definition msg_obtaining : pystr := lit "Obtaining git diff...".
Definition msg_generating : pystr := lit "Generating code review via OpenAI...".
Definition msg_done : pystr := 9989%N :: lit " Code review completed successfully!".

(** [main] once the credential has been found and the first line printed. *)
Definition after_check : M unit :=
  let* diff := get_diff in
  print msg_generating ;;
  let* review := review_code diff in
  save_review review ;;
  print msg_done.




(** * Worlds to run the script in *)

(** What [git] answers to the three command lines of the script. *)
Definition git (rev parent_diff empty_diff : completed) : list string -> completed :=
  fun argv =>
    if decide (argv = rev_parse_parent) then rev
    else if decide (argv = diff_parent_head) then parent_diff
    else if decide (argv = diff_empty_head) then empty_diff
    else SpawnFailed FileNotFoundError.

Definition answer (choices : list pyval) : request -> api_result :=
  fun _ => ApiReturns (PDict [(lit "id", PStr (lit "chatcmpl-1"));
                              (lit "choices", PList choices)]).

Definition choice (text : pystr) : pyval :=
  PDict [(lit "index", PInt 0);
         (lit "message", PDict [(lit "role", PStr (lit "assistant"));
                                (lit "content", PStr text)])].

Definition with_key : gmap string pystr := {[ "OPENAI_API_KEY" := lit "sk-test" ]}.

Definition fatal : completed := Completed 128 [].

(** The review of the scenario of the specification; it ends in U+2026. *)
Definition review_text : pystr := lit "## Review" ++ nl ++ lit "- Good: " ++ [8230%N].

(** Commits A and B, B at HEAD, as [git] shows them. *)
Definition git_two_commits : list string -> completed :=
  git (Completed 0 (lit "3f2a9c1")) (Completed 0 (lit "added line X"))
      (Completed 0 (lit "all of B")).

Definition w_two_commits : World :=
  mkWorld with_key git_two_commits (answer [choice review_text]) ∅ [].


(** A single commit: HEAD has no parent. *)
Definition w_first_commit : World :=
  mkWorld with_key
    (git fatal fatal (Completed 0 (lit "all of A")))
    (answer [choice review_text])
    ∅ [].

(** Commits A and B again, with an object that only A reaches unreadable
    (or an external diff program that fails on it): the parent resolves,
    [git diff HEAD~1 HEAD] is fatal, the diff of B against the empty tree
    is produced. *)
Definition w_parent_diff_fails : World :=
  mkWorld with_key
    (git (Completed 0 (lit "3f2a9c1")) fatal (Completed 0 (lit "all of B")))
    (answer [choice review_text])
    ∅ [].

(** A single commit whose diff cannot be produced (an unreadable object,
    an external diff program that fails): HEAD has no parent and the diff
    against the empty tree ends with status 128 as well. *)
Definition w_git_fatal : World :=
  mkWorld with_key (git fatal fatal fatal) (answer [choice review_text]) ∅ [].

(** Commits A and B with the same trouble: the parent resolves and no
    diff can be produced at all. *)
Definition w_diffs_fatal : World :=
  mkWorld with_key
    (git (Completed 0 (lit "3f2a9c1")) fatal fatal)
    (answer [choice review_text])
    ∅ [].

(** The variable is not in the environment. *)
Definition w_no_key : World :=
  mkWorld ∅ git_two_commits (answer [choice review_text]) ∅ [].

(** The variable is there and empty. *)
Definition w_empty_key : World :=
  mkWorld {[ "OPENAI_API_KEY" := [] ]} git_two_commits (answer [choice review_text]) ∅ [].

(** A report left by an earlier run. *)
Definition old_report : gmap string node :=
  <[file_path := File (byte_of 111 :: byte_of 108 :: byte_of 100 :: [])]> {[ "docs" := Dir ]}.

(** The endpoint answers with no choice at all; an older report is on disk. *)
Definition w_no_choice : World :=
  mkWorld with_key git_two_commits (answer []) old_report [].

(** The endpoint refuses the call; an older report is on disk. *)
Definition w_rate_limited : World :=
  mkWorld with_key git_two_commits
    (fun _ => ApiRaises (OpenAIError RateLimitError))
    old_report [].


(** * Names for the further properties *)

Definition is_called_process_error (e : exn) : bool :=
  match e with CalledProcessError _ _ => true | _ => false end.

(** What [check_output] hands to its caller for one answer of the child. *)
Definition returned (argv : list string) (c : completed) : result pystr :=
  match c with
  | Completed rc out =>
      if (rc =? 0)%Z then Ok out else Raise (CalledProcessError rc argv)
  | SpawnFailed e => Raise e
  end.

(** [get_diff] as a function of the answers of [git]: its result and the
    command lines it runs. *)
Definition get_diff_of (p : list string -> completed) : result pystr * list event :=
  match returned rev_parse_parent (p rev_parse_parent) with
  | Ok _ =>
      match returned diff_parent_head (p diff_parent_head) with
      | Ok d => (Ok d, [EvSpawn rev_parse_parent; EvSpawn diff_parent_head])
      | Raise (CalledProcessError _ _) =>
          (returned diff_empty_head (p diff_empty_head),
           [EvSpawn rev_parse_parent; EvSpawn diff_parent_head; EvSpawn diff_empty_head])
      | Raise e => (Raise e, [EvSpawn rev_parse_parent; EvSpawn diff_parent_head])
      end
  | Raise (CalledProcessError _ _) =>
      (returned diff_empty_head (p diff_empty_head),
       [EvSpawn rev_parse_parent; EvSpawn diff_empty_head])
  | Raise e => (Raise e, [EvSpawn rev_parse_parent])
  end.

(** [save_review] as a function of the files it finds: its result, the
    files it leaves and the calls it makes. *)
Definition save_review_of (f : gmap string node) (v : pyval)
  : result unit * gmap string node * list event :=
  match f !! "docs" with
  | Some (File _) => (Raise FileExistsError, f, [EvMakedirs "docs"])
  | _ =>
      let f1 := <["docs" := Dir]> f in
      match f !! file_path with
      | Some Dir =>
          (Raise IsADirectoryError, f1, [EvMakedirs "docs"; EvOpen file_path])
      | _ =>
          let f2 := <[file_path := File []]> f1 in
          let calls := [EvMakedirs "docs"; EvOpen file_path; EvWrite file_path] in
          match v with
          | PStr s =>
              match utf8_encode s with
              | Some bs =>
                  (Ok tt, <[file_path := File bs]> f1, calls ++ [EvPrint saved_line])
              | None => (Raise UnicodeEncodeError, f2, calls)
              end
          | _ => (Raise TypeError, f2, calls)
          end
      end
  end.

(** [review_code] as a function of the answer of the endpoint. *)
Definition review_code_of (a : request -> api_result) (diff : pystr) : result pyval :=
  match a (review_request diff) with
  | ApiReturns response => first_choice_content response
  | ApiRaises e => Raise e
  end.

(** A whole run as a function of the world it starts in: its result, the
    files it leaves and the calls it makes. *)
Definition main_of (w : World) : result unit * gmap string node * list event :=
  if negb (truthy (environ w !! "OPENAI_API_KEY")) then
    (Raise (SystemExit 1), fs w, [EvPrint msg_no_key])
  else
    let spawns := snd (get_diff_of (proc w)) in
    match fst (get_diff_of (proc w)) with
    | Raise e => (Raise e, fs w, EvPrint msg_obtaining :: spawns)
    | Ok diff =>
        let asked :=
          EvPrint msg_obtaining :: spawns
          ++ [EvPrint msg_generating; EvApiCall (review_request diff)] in
        match review_code_of (api w) diff with
        | Raise e => (Raise e, fs w, asked)
        | Ok review =>
            let saved := save_review_of (fs w) review in
            match fst (fst saved) with
            | Raise e => (Raise e, snd (fst saved), asked ++ snd saved)
            | Ok _ => (Ok tt, snd (fst saved), asked ++ snd saved ++ [EvPrint msg_done])
            end
        end
    end.

(** The exception [file.write] raises for a value it cannot write. *)
Definition write_error (v : pyval) : option exn :=
  match v with
  | PStr s =>
      match utf8_encode s with
      | Some _ => None
      | None => Some UnicodeEncodeError
      end
  | _ => Some TypeError
  end.

(** An exception other than [SystemExit]. *)
Definition plain (e : exn) : bool :=
  match e with SystemExit _ => false | _ => true end.

(** The two worlds have the same environment and the same oracles, the
    same files under every name but [docs] and the report, and [docs], if
    it was a directory, still is one. *)
Definition frame (w w' : World) : Prop :=
  environ w' = environ w
  /\ proc w' = proc w
  /\ api w' = api w
  /\ (forall p, p <> "docs" -> p <> file_path -> fs w' !! p = fs w !! p)
  /\ (fs w !! "docs" = Some Dir -> fs w' !! "docs" = Some Dir).

(** All that a run can do once the credential is there, in order. *)
Definition schedule (spawns : list event) (req : request) : list event :=
  EvPrint msg_obtaining :: spawns
  ++ [EvPrint msg_generating; EvApiCall req;
      EvMakedirs "docs"; EvOpen file_path; EvWrite file_path;
      EvPrint saved_line; EvPrint msg_done].

(** [git] is not installed. *)
Definition w_no_git : World :=
  mkWorld with_key (fun _ => SpawnFailed FileNotFoundError) (answer [choice review_text]) ∅ [].

(** Commits A and B, and a diff that is not text in the encoding of the
    locale. *)
Definition w_undecodable_diff : World :=
  mkWorld with_key
    (git (Completed 0 (lit "3f2a9c1")) (SpawnFailed UnicodeDecodeError)
         (Completed 0 (lit "all of B")))
    (answer [choice review_text])
    ∅ [].


(** * UTF-8 round trip *)


Section Utf8Facts.

Local Open Scope N_scope.






























End Utf8Facts.

(** * The monad, step by step *)

Lemma bind_ok {A B : Type} (c : M A) (k : A -> M B) w a w' :
  c w = (Ok a, w') -> bind c k w = k a w'.
Proof. intros H. unfold bind. now rewrite H. Qed.

Lemma bind_raise {A B : Type} (c : M A) (k : A -> M B) w e w' :
  c w = (Raise e, w') -> bind c k w = (Raise e, w').
Proof. intros H. unfold bind. now rewrite H. Qed.

Lemma events_since_log w e : events_since w (log e w) = [e].
Proof.
  unfold events_since. cbn. now rewrite drop_app_length.
Qed.

Lemma events_since_app w w' l :
  trace w' = trace w ++ l -> events_since w w' = l.
Proof.
  intros H. unfold events_since. rewrite H. apply drop_app_length.
Qed.

(** * Diff extraction *)

Section CheckOutput.

Variable w : World.

Lemma check_output_zero argv out :
  proc w argv = Completed 0 out ->
  check_output argv w = (Ok out, log (EvSpawn argv) w).
Proof.
  intros H. unfold check_output, bind, emit. cbn. now rewrite H.
Qed.

Lemma check_output_nonzero argv rc out :
  proc w argv = Completed rc out -> rc <> 0%Z ->
  check_output argv w = (Raise (CalledProcessError rc argv), log (EvSpawn argv) w).
Proof.
  intros H Hrc. unfold check_output, bind, emit. cbn. rewrite H.
  destruct (Z.eqb_spec rc 0); [contradiction | reflexivity].
Qed.

Lemma check_output_spawn_failed argv e :
  proc w argv = SpawnFailed e ->
  check_output argv w = (Raise e, log (EvSpawn argv) w).
Proof.
  intros H. unfold check_output, bind, emit. cbn. now rewrite H.
Qed.

(** Whatever the command does, [check_output] logs the call and leaves
    the rest of the world alone. *)
Lemma check_output_world argv :
  snd (check_output argv w) = log (EvSpawn argv) w.
Proof.
  unfold check_output, bind, emit. cbn.
  destruct (proc w argv) as [rc out | e]; [destruct (rc =? 0)%Z |]; reflexivity.
Qed.

End CheckOutput.

Section GetDiff.

Variable w : World.

Let w1 := log (EvSpawn rev_parse_parent) w.


(** [git rev-parse HEAD~1] exits with a return code other than zero: the
    handler runs and the result of [get_diff] is the result of the diff
    against the empty tree, good or bad. *)
Lemma get_diff_no_parent rc out :
  proc w rev_parse_parent = Completed rc out -> rc <> 0%Z ->
  get_diff w =
    (let* diff := check_output diff_empty_head in ret diff) w1.
Proof.
  intros Hrev Hrc. unfold get_diff, try_except.
  rewrite (bind_raise _ _ _ _ _ (check_output_nonzero w _ _ _ Hrev Hrc)).
  reflexivity.
Qed.

(** The parent resolves but [git diff HEAD~1 HEAD] exits with a return
    code other than zero: the same handler runs. *)
Lemma get_diff_parent_diff_fails out rc out' :
  proc w rev_parse_parent = Completed 0 out ->
  proc w diff_parent_head = Completed rc out' -> rc <> 0%Z ->
  get_diff w =
    (let* diff := check_output diff_empty_head in ret diff)
      (log (EvSpawn diff_parent_head) w1).
Proof.
  intros Hrev Hdiff Hrc. unfold get_diff, try_except.
  rewrite (bind_ok _ _ _ _ _ (check_output_zero w _ _ Hrev)).
  rewrite (bind_raise _ _ _ _ _ (check_output_nonzero w1 _ _ _ Hdiff Hrc)).
  reflexivity.
Qed.

End GetDiff.

Ltac same_world :=
  unfold log, set_fs; cbn; rewrite <- ?app_assoc; reflexivity.

(** [get_diff] only ever adds process calls to the trace: the file
    system, the environment and the two oracles stay as they were. *)
Lemma get_diff_world w :
  exists l, snd (get_diff w) = mkWorld (environ w) (proc w) (api w) (fs w) (trace w ++ l)
            /\ forallb is_spawn l = true.
Proof.
  unfold get_diff, try_except, bind.
  pose proof (check_output_world w rev_parse_parent) as H1.
  destruct (check_output rev_parse_parent w) as [[o1|e1] w1]; cbn in H1; subst w1.
  - pose proof (check_output_world (log (EvSpawn rev_parse_parent) w) diff_parent_head) as H2.
    destruct (check_output diff_parent_head _) as [[o2|e2] w2]; cbn in H2; subst w2.
    + exists [EvSpawn rev_parse_parent; EvSpawn diff_parent_head]. split; [same_world | reflexivity].
    + destruct e2;
        try (exists [EvSpawn rev_parse_parent; EvSpawn diff_parent_head];
             split; [same_world | reflexivity]).
      pose proof (check_output_world
                    (log (EvSpawn diff_parent_head) (log (EvSpawn rev_parse_parent) w))
                    diff_empty_head) as H3.
      destruct (check_output diff_empty_head _) as [[o3|e3] w3]; cbn in H3; subst w3;
        exists [EvSpawn rev_parse_parent; EvSpawn diff_parent_head; EvSpawn diff_empty_head];
        (split; [same_world | reflexivity]).
  - destruct e1; try (exists [EvSpawn rev_parse_parent]; split; [same_world | reflexivity]).
    pose proof (check_output_world (log (EvSpawn rev_parse_parent) w) diff_empty_head) as H3.
    destruct (check_output diff_empty_head _) as [[o3|e3] w3]; cbn in H3; subst w3;
      exists [EvSpawn rev_parse_parent; EvSpawn diff_empty_head];
      (split; [same_world | reflexivity]).
Qed.

(** * The review request *)

Lemma build_prompt_split diff :
  build_prompt diff = prompt_head ++ diff ++ prompt_tail.
Proof.
  unfold build_prompt, prompt_head, prompt_tail.
  repeat rewrite <- app_assoc. reflexivity.
Qed.

Lemma seq_get_0 {A : Type} (l : list A) : seq_get l 0 = head l.
Proof. unfold seq_get. cbn. now destruct l. Qed.

Lemma first_choice_content_well_formed response :
  well_formed response = true ->
  exists v, first_choice_content response = Ok v.
Proof.
  unfold well_formed, first_choice_content.
  destruct response as [| | | |l|d]; try discriminate. cbn.
  destruct (dict_get (lit "choices") d) as [[| | | |[|[| | | | |c] l]|]|]; try discriminate.
  cbn. rewrite seq_get_0. cbn.
  destruct (dict_get (lit "message") c) as [[| | | | |m]|]; try discriminate.
  cbn. destruct (dict_get (lit "content") m) as [v|]; try discriminate.
  intros _. now exists v.
Qed.

Lemma first_choice_content_malformed response :
  well_formed response = false ->
  exists e, first_choice_content response = Raise e /\ lookup_failure e = true.
Proof.
  unfold well_formed, first_choice_content.
  destruct response as [| | | |l|d]; cbn; try (intros _; now exists TypeError).
  destruct (dict_get (lit "choices") d) as [choices|]; [|intros _; now exists KeyError].
  destruct choices as [| | |s|l|d']; cbn; try (intros _; now exists TypeError).
  - rewrite seq_get_0. destruct s; cbn; intros _; [now exists IndexError | now exists TypeError].
  - rewrite seq_get_0. destruct l as [|choice l]; cbn; [intros _; now exists IndexError|].
    destruct choice as [| | |s|l'|c]; cbn; try (intros _; now exists TypeError).
    destruct (dict_get (lit "message") c) as [msg|]; [|intros _; now exists KeyError].
    destruct msg as [| | |s|l'|m]; cbn; try (intros _; now exists TypeError).
    destruct (dict_get (lit "content") m); [discriminate | intros _; now exists KeyError].
  - intros _; now exists KeyError.
Qed.

(** An empty list of choices is an [IndexError]. *)
Lemma first_choice_content_no_choice response :
  subscript response (IStr (lit "choices")) = Ok (PList []) ->
  first_choice_content response = Raise IndexError.
Proof.
  intros H. unfold first_choice_content. rewrite H. reflexivity.
Qed.

Section ReviewCode.

Variables (diff : pystr) (w : World).

Let w1 := log (EvApiCall (review_request diff)) w.

Lemma review_code_returns response :
  api w (review_request diff) = ApiReturns response ->
  review_code diff w = (first_choice_content response, w1).
Proof.
  intros H. unfold review_code, ChatCompletion_create, bind, emit, lift. cbn.
  unfold review_request in H. now rewrite H.
Qed.

Lemma review_code_raises e :
  api w (review_request diff) = ApiRaises e ->
  review_code diff w = (Raise e, w1).
Proof.
  intros H. unfold review_code, ChatCompletion_create, bind, emit, lift. cbn.
  unfold review_request in H. now rewrite H.
Qed.

(** One call to the endpoint, whatever comes back, and nothing else. *)
Lemma review_code_world : snd (review_code diff w) = w1.
Proof.
  destruct (api w (review_request diff)) as [response|e] eqn:H.
  - now rewrite (review_code_returns _ H).
  - now rewrite (review_code_raises _ H).
Qed.

End ReviewCode.

(** * The report writer *)

Lemma dirname_file_path : dirname file_path = "docs".
Proof. reflexivity. Qed.

Section SaveReview.

Variable w : World.

Lemma os_makedirs_absent path :
  fs w !! path = None ->
  os_makedirs path true w
  = (Ok tt, set_fs (<[path := Dir]> (fs w)) (log (EvMakedirs path) w)).
Proof.
  intros H. unfold os_makedirs, bind, emit. cbn. now rewrite H.
Qed.

Lemma os_makedirs_present path :
  fs w !! path = Some Dir ->
  os_makedirs path true w = (Ok tt, log (EvMakedirs path) w).
Proof.
  intros H. unfold os_makedirs, bind, emit. cbn. now rewrite H.
Qed.

Lemma os_makedirs_collision path data :
  fs w !! path = Some (File data) ->
  os_makedirs path true w = (Raise FileExistsError, log (EvMakedirs path) w).
Proof.
  intros H. unfold os_makedirs, bind, emit. cbn. now rewrite H.
Qed.

(** In every case the directory is there when [os.makedirs] returns,
    no other name is touched, and a failure changes nothing. *)
Lemma os_makedirs_post path r w' :
  os_makedirs path true w = (r, w') ->
  trace w' = trace w ++ [EvMakedirs path]
  /\ match r with
     | Ok _ => fs w' = <[path := Dir]> (fs w) /\ fs w' !! path = Some Dir
     | Raise _ => fs w' = fs w
     end.
Proof.
  destruct (fs w !! path) as [[|data]|] eqn:H.
  - rewrite (os_makedirs_present _ H). intros [= <- <-]. cbn.
    split; [reflexivity|]. split; [|assumption].
    symmetry. now apply insert_id.
  - rewrite (os_makedirs_collision _ _ H). now intros [= <- <-].
  - rewrite (os_makedirs_absent _ H). intros [= <- <-]. cbn.
    split; [reflexivity|]. split; [reflexivity|]. apply lookup_insert_eq.
Qed.

Lemma open_w_post r w' :
  open_w file_path w = (r, w') ->
  trace w' = trace w ++ [EvOpen file_path]
  /\ match r with
     | Ok _ => fs w' = <[file_path := File []]> (fs w)
     | Raise _ => fs w' = fs w
     end.
Proof.
  unfold open_w, bind, emit. cbn. rewrite dirname_file_path. cbn.
  destruct (fs w !! "docs") as [[|data]|]; cbn;
    [destruct (fs w !! file_path) as [[|data]|] | |];
    intros [= <- <-]; cbn; auto.
Qed.

Lemma open_w_ok :
  fs w !! "docs" = Some Dir -> fs w !! file_path <> Some Dir ->
  open_w file_path w
  = (Ok tt, set_fs (<[file_path := File []]> (fs w)) (log (EvOpen file_path) w)).
Proof.
  intros Hd Hf. unfold open_w, bind, emit. cbn. rewrite dirname_file_path. cbn.
  rewrite Hd. destruct (fs w !! file_path) as [[|data]|]; [contradiction | |]; reflexivity.
Qed.

Lemma file_write_post v r w' :
  file_write file_path v w = (r, w') ->
  trace w' = trace w ++ [EvWrite file_path]
  /\ match r with
     | Ok _ => exists s bs, v = PStr s /\ utf8_encode s = Some bs
                            /\ fs w' = append_data file_path bs (fs w)
     | Raise _ => fs w' = fs w
     end.
Proof.
  unfold file_write, bind, emit, raise. cbn.
  destruct v as [| | |s| |]; try (intros [= <- <-]; cbn; auto).
  destruct (utf8_encode s) as [bs|] eqn:He; intros [= <- <-]; cbn; [|auto].
  split; [reflexivity|]. now exists s, bs.
Qed.

Lemma file_write_ok s bs :
  utf8_encode s = Some bs ->
  file_write file_path (PStr s) w
  = (Ok tt, set_fs (append_data file_path bs (fs w)) (log (EvWrite file_path) w)).
Proof.
  intros H. unfold file_write, bind, emit. cbn. now rewrite H.
Qed.

End SaveReview.

Lemma append_after_open bs (f : gmap string node) :
  append_data file_path bs (<[file_path := File []]> f) = <[file_path := File bs]> f.
Proof.
  unfold append_data. rewrite lookup_insert_eq. cbn. apply insert_insert_eq.
Qed.

Lemma file_path_not_docs : file_path <> "docs".
Proof. discriminate. Qed.

Lemma bind_inv {A B : Type} (c : M A) (k : A -> M B) w r w' :
  bind c k w = (r, w') ->
  (exists a w1, c w = (Ok a, w1) /\ k a w1 = (r, w'))
  \/ (exists e, c w = (Raise e, w') /\ r = Raise e).
Proof.
  unfold bind. destruct (c w) as [[a|e] w1]; intros H.
  - left. now exists a, w1.
  - right. exists e. now injection H as <- <-.
Qed.

Lemma print_post line w : print line w = (Ok tt, log (EvPrint line) w).
Proof. reflexivity. Qed.

Section SaveReviewWhole.

Variable w : World.

Lemma save_review_ok s bs :
  utf8_encode s = Some bs ->
  fs w !! "docs" = None \/ fs w !! "docs" = Some Dir ->
  fs w !! file_path <> Some Dir ->
  save_review (PStr s) w
  = (Ok tt,
     mkWorld (environ w) (proc w) (api w)
       (<[file_path := File bs]> (<["docs" := Dir]> (fs w)))
       (trace w ++ [EvMakedirs "docs"; EvOpen file_path; EvWrite file_path;
                    EvPrint saved_line])).
Proof.
  intros Henc Hdocs Hfile. unfold save_review.
  destruct (os_makedirs "docs" true w) as [r1 w1] eqn:H1.
  assert (r1 = Ok tt /\ fs w1 = <["docs" := Dir]> (fs w)
          /\ w1 = set_fs (fs w1) (log (EvMakedirs "docs") w)) as (-> & Hfs1 & Hw1).
  { destruct Hdocs as [Hd|Hd].
    - rewrite (os_makedirs_absent _ _ Hd) in H1. now injection H1 as <- <-.
    - rewrite (os_makedirs_present _ _ Hd) in H1. injection H1 as <- <-.
      cbn. split; [reflexivity|]. split; [|reflexivity].
      symmetry. now apply insert_id. }
  rewrite (bind_ok _ _ _ _ _ H1).
  assert (fs w1 !! "docs" = Some Dir) as Hd1
    by (rewrite Hfs1; apply lookup_insert_eq).
  assert (fs w1 !! file_path <> Some Dir) as Hf1.
  { rewrite Hfs1, lookup_insert_ne; [assumption|]. intros E. now apply file_path_not_docs. }
  rewrite (bind_ok _ _ _ _ _ (open_w_ok _ Hd1 Hf1)).
  rewrite (bind_ok _ _ _ _ _ (file_write_ok _ _ _ Henc)).
  rewrite print_post. f_equal.
  rewrite Hw1. unfold log, set_fs. cbn. rewrite append_after_open, Hfs1.
  rewrite <- !app_assoc. reflexivity.
Qed.

(** What [save_review] has done when it is over: on success the
    argument was a [str] and the report holds its encoding; on failure
    the report is as before unless [file.write] had been reached. *)
Lemma save_review_post v r w' :
  save_review v w = (r, w') ->
  exists l, trace w' = trace w ++ l
    /\ match r with
       | Ok _ => exists s bs, v = PStr s /\ utf8_encode s = Some bs
                   /\ fs w' = <[file_path := File bs]> (<["docs" := Dir]> (fs w))
       | Raise _ => EvWrite file_path ∉ l -> fs w' !! file_path = fs w !! file_path
       end.
Proof.
  unfold save_review. intros H.
  apply bind_inv in H as [(? & w1 & H1 & H)|(e & H1 & ->)];
    apply os_makedirs_post in H1 as [Ht1 Hf1].
  2:{ exists [EvMakedirs "docs"]. split; [assumption|]. intros _. now rewrite Hf1. }
  destruct Hf1 as [Hf1 _].
  apply bind_inv in H as [(? & w2 & H2 & H)|(e & H2 & ->)];
    apply open_w_post in H2 as [Ht2 Hf2].
  2:{ exists [EvMakedirs "docs"; EvOpen file_path].
      split; [rewrite Ht2, Ht1, <- app_assoc; reflexivity|].
      intros _. rewrite Hf2, Hf1. apply lookup_insert_ne.
      intros E. now apply file_path_not_docs. }
  apply bind_inv in H as [(? & w3 & H3 & H)|(e & H3 & ->)];
    apply file_write_post in H3 as [Ht3 Hf3].
  2:{ exists [EvMakedirs "docs"; EvOpen file_path; EvWrite file_path].
      split; [rewrite Ht3, Ht2, Ht1, <- !app_assoc; reflexivity|].
      intros Hn. exfalso. apply Hn. set_solver. }
  rewrite print_post in H. injection H as <- <-.
  exists [EvMakedirs "docs"; EvOpen file_path; EvWrite file_path; EvPrint saved_line].
  split; [cbn; rewrite Ht3, Ht2, Ht1, <- !app_assoc; reflexivity|].
  destruct Hf3 as (s & bs & -> & Henc & Hf3). exists s, bs.
  split; [reflexivity|]. split; [assumption|].
  cbn. rewrite Hf3, Hf2, Hf1. apply append_after_open.
Qed.

End SaveReviewWhole.

(** * The entry routine *)

Lemma main_no_key w :
  truthy (environ w !! "OPENAI_API_KEY") = false ->
  main w = (Raise (SystemExit 1), log (EvPrint msg_no_key) w).
Proof.
  intros H. unfold main, bind, os_getenv. rewrite H. reflexivity.
Qed.

Lemma main_with_key w :
  truthy (environ w !! "OPENAI_API_KEY") = true ->
  main w = after_check (log (EvPrint msg_obtaining) w).
Proof.
  intros H. unfold main, bind at 1 2, os_getenv. rewrite H. reflexivity.
Qed.

Lemma get_diff_post w r w1 :
  get_diff w = (r, w1) ->
  exists l, w1 = mkWorld (environ w) (proc w) (api w) (fs w) (trace w ++ l)
            /\ forallb is_spawn l = true.
Proof.
  intros H. destruct (get_diff_world w) as (l & Hw & Hl).
  rewrite H in Hw. now exists l.
Qed.

Lemma review_code_post diff w r w1 :
  review_code diff w = (r, w1) -> w1 = log (EvApiCall (review_request diff)) w.
Proof.
  intros H. pose proof (review_code_world diff w) as Hw. now rewrite H in Hw.
Qed.

Lemma spawns_no_write l : forallb is_spawn l = true -> EvWrite file_path ∉ l.
Proof.
  intros H Hin. rewrite forallb_forall in H.
  apply list_elem_of_In in Hin. now apply H in Hin.
Qed.

(** Everything [main] can have done once the credential is there. *)
Lemma after_check_post w r w' :
  after_check w = (r, w') ->
  exists l, trace w' = trace w ++ l
    /\ match r with
       | Ok _ =>
           exists diff response review bs,
             fst (get_diff w) = Ok diff
             /\ api w (review_request diff) = ApiReturns response
             /\ first_choice_content response = Ok (PStr review)
             /\ utf8_encode review = Some bs
             /\ fs w' = <[file_path := File bs]> (<["docs" := Dir]> (fs w))
       | Raise _ => EvWrite file_path ∉ l -> fs w' !! file_path = fs w !! file_path
       end.
Proof.
  unfold after_check. intros H.
  apply bind_inv in H as [(diff & w1 & H1 & H)|(e & H1 & ->)];
    pose proof H1 as Hd; apply get_diff_post in H1 as (l1 & -> & Hl1).
  2:{ exists l1. split; [reflexivity|]. intros _. reflexivity. }
  rewrite (bind_ok _ _ _ _ _ (print_post _ _)) in H.
  apply bind_inv in H as [(review & w2 & H2 & H)|(e & H2 & ->)];
    pose proof H2 as Hr; apply review_code_post in H2 as ->.
  2:{ exists (l1 ++ [EvPrint msg_generating; EvApiCall (review_request diff)]).
      split; [cbn; now rewrite <- !app_assoc|]. intros _. reflexivity. }
  apply bind_inv in H as [(? & w3 & H3 & H)|(e & H3 & ->)];
    apply save_review_post in H3 as (l3 & Ht3 & H3).
  2:{ exists (l1 ++ [EvPrint msg_generating; EvApiCall (review_request diff)] ++ l3).
      split; [rewrite Ht3; cbn; now rewrite <- !app_assoc|].
      intros Hn. rewrite H3; [reflexivity|]. intros Hin. apply Hn.
      rewrite !elem_of_app. auto. }
  rewrite print_post in H. injection H as <- <-.
  exists (l1 ++ [EvPrint msg_generating; EvApiCall (review_request diff)] ++ l3 ++ [EvPrint msg_done]).
  split; [cbn; rewrite Ht3; cbn; now rewrite <- !app_assoc|].
  destruct H3 as (s & bs & -> & Henc & Hfs).
  destruct (api w (review_request diff)) as [response|e] eqn:Hapi.
  - exists diff, response, s, bs. rewrite Hd. split; [reflexivity|]. split; [exact Hapi|].
    split.
    + set (w1 := log _ _) in Hr.
      assert (api w1 (review_request diff) = ApiReturns response) as Hapi1 by exact Hapi.
      rewrite (review_code_returns _ _ _ Hapi1) in Hr. now injection Hr.
    + split; assumption.
  - set (w1 := log _ _) in Hr.
    assert (api w1 (review_request diff) = ApiRaises e) as Hapi1 by exact Hapi.
    rewrite (review_code_raises _ _ _ Hapi1) in Hr. discriminate.
Qed.



(** The run that goes well: the credential is there, [get_diff] returns,
    the answer has a text as its first choice, and nothing stands in the
    way of the report. *)
Lemma main_succeeds w diff response review bs :
  truthy (environ w !! "OPENAI_API_KEY") = true ->
  fst (get_diff (log (EvPrint msg_obtaining) w)) = Ok diff ->
  api w (review_request diff) = ApiReturns response ->
  first_choice_content response = Ok (PStr review) ->
  utf8_encode review = Some bs ->
  fs w !! "docs" = None \/ fs w !! "docs" = Some Dir ->
  fs w !! file_path <> Some Dir ->
  exists w', main w = (Ok tt, w')
             /\ fst (run w) = 0%Z
             /\ fs w' = <[file_path := File bs]> (<["docs" := Dir]> (fs w)).
Proof.
  intros Hkey Hd Hapi Hc Henc Hdocs Hfile.
  assert (exists w', main w = (Ok tt, w')
                     /\ fs w' = <[file_path := File bs]> (<["docs" := Dir]> (fs w)))
    as (w' & Hmain & Hfs).
  { rewrite (main_with_key _ Hkey). unfold after_check.
    destruct (get_diff (log (EvPrint msg_obtaining) w)) as [r w1] eqn:Hg.
    cbn in Hd. subst r. pose proof Hg as Hw1.
    apply get_diff_post in Hw1 as (l1 & -> & _).
    rewrite (bind_ok _ _ _ _ _ Hg).
    rewrite (bind_ok _ _ _ _ _ (print_post _ _)).
    set (w2 := log (EvPrint msg_generating) _).
    assert (api w2 (review_request diff) = ApiReturns response) as Hapi2 by exact Hapi.
    pose proof (review_code_returns diff w2 response Hapi2) as Hr. rewrite Hc in Hr.
    rewrite (bind_ok _ _ _ _ _ Hr).
    set (w3 := log (EvApiCall _) w2).
    assert (fs w3 = fs w) as Hfs3 by reflexivity.
    rewrite <- Hfs3 in Hdocs, Hfile.
    rewrite (bind_ok _ _ _ _ _ (save_review_ok w3 review bs Henc Hdocs Hfile)).
    rewrite print_post. eexists. split; reflexivity. }
  exists w'. split; [assumption|]. split; [|assumption].
  unfold run. now rewrite Hmain.
Qed.

(** * The script on the worlds above *)

(** Commits A and B: status 0 and the review, byte for byte, in
    [docs/review_report.md]. *)
Example scenario_two_commits :
  fst (run w_two_commits) = 0%Z
  /\ exists bs, utf8_encode review_text = Some bs
                /\ fs (snd (run w_two_commits)) !! file_path = Some (File bs).
Proof.
  split; [reflexivity|]. eexists. split; vm_compute; reflexivity.
Qed.

(** A single commit: the diff sent is the one against the empty tree. *)
Example scenario_first_commit :
  fst (run w_first_commit) = 0%Z
  /\ EvApiCall (review_request (lit "all of A")) ∈ trace (snd (run w_first_commit)).
Proof.
  split; [reflexivity|]. vm_compute. do 4 apply list_elem_of_further. apply list_elem_of_here.
Qed.

(** No credential: status 1, one line printed, no file. *)
Example scenario_no_key :
  run w_no_key = (1%Z, log (EvPrint msg_no_key) w_no_key)
  /\ fs (snd (run w_no_key)) = ∅.
Proof. split; reflexivity. Qed.

(** [git] is not installed: [FileNotFoundError] is not a
    [CalledProcessError], the handler does not run. *)
Lemma get_diff_spawn_failed (w : World) (e : exn) :
  proc w rev_parse_parent = SpawnFailed e ->
  (forall rc cmd, e <> CalledProcessError rc cmd) ->
  get_diff w = (Raise e, log (EvSpawn rev_parse_parent) w).
Proof.
  intros H Hne. unfold get_diff, try_except.
  rewrite (bind_raise _ _ _ _ _ (check_output_spawn_failed w _ _ H)).
  destruct e; try reflexivity. now destruct (Hne returncode cmd).
Qed.

(** What [file.write] itself refuses comes too late for the old report:
    [open] has emptied it. *)
Example save_review_none :
  fst (save_review PNone w_rate_limited) = Raise TypeError
  /\ fs (snd (save_review PNone w_rate_limited)) !! file_path = Some (File []).
Proof. split; reflexivity. Qed.

(** A directory where the report should be: [open] refuses, and the
    directory stays. *)
Example save_review_report_is_a_directory :
  let w := set_fs (<[file_path := Dir]> old_report) w_rate_limited in
  fst (save_review (PStr review_text) w) = Raise IsADirectoryError
  /\ fs (snd (save_review (PStr review_text) w)) = fs w.
Proof. split; reflexivity. Qed.

Example save_review_lone_surrogate :
  fst (save_review (PStr [55296%N]) w_rate_limited) = Raise UnicodeEncodeError
  /\ fs (snd (save_review (PStr [55296%N]) w_rate_limited)) !! file_path = Some (File []).
Proof. split; reflexivity. Qed.

(** * The claims *)



(** C2. With [OPENAI_API_KEY] unset or empty, the run ends with status 1
    after printing one line: no [git] invocation, no call to the remote
    endpoint, no file operation, and the file system as it was. *)
Theorem main_without_credential (w : World) :
  environ w !! "OPENAI_API_KEY" = None \/ environ w !! "OPENAI_API_KEY" = Some [] ->
  run w = (1%Z, log (EvPrint msg_no_key) w)
  /\ count is_spawn (events_since w (snd (run w))) = 0
  /\ count is_api_call (events_since w (snd (run w))) = 0
  /\ count is_file_op (events_since w (snd (run w))) = 0
  /\ fs (snd (run w)) = fs w.
Proof.
  intros H.
  assert (run w = (1%Z, log (EvPrint msg_no_key) w)) as Hrun.
  { unfold run. rewrite main_no_key; [reflexivity|].
    destruct H as [-> | ->]; reflexivity. }
  rewrite Hrun. cbn [snd]. rewrite events_since_log. repeat split.
Qed.

Lemma main_without_credential_witness :
  fst (run w_no_key) = 1%Z /\ fst (run w_empty_key) = 1%Z.
Proof.
  split.
  - now rewrite (proj1 (main_without_credential w_no_key (or_introl eq_refl))).
  - now rewrite (proj1 (main_without_credential w_empty_key (or_intror eq_refl))).
Defined.




(** C4, as stated, fails where [git rev-parse HEAD~1] and the diff
    against the empty tree both exit with a status other than zero:
    [get_diff] does not succeed. *)
Lemma get_diff_no_parent_diff_fatal :
  proc w_git_fatal rev_parse_parent = Completed 128 []
  /\ fst (get_diff w_git_fatal) = Raise (CalledProcessError 128 diff_empty_head)
  /\ events_since w_git_fatal (snd (get_diff w_git_fatal))
     = [EvSpawn rev_parse_parent; EvSpawn diff_empty_head].
Proof.
  split; [reflexivity|].
  assert (128 <> 0)%Z as Hrc by discriminate.
  rewrite (get_diff_no_parent w_git_fatal 128 [] eq_refl Hrc).
  set (w1 := log (EvSpawn rev_parse_parent) _).
  assert (proc w1 diff_empty_head = Completed 128 []) as H by reflexivity.
  rewrite (bind_raise _ _ _ _ _ (check_output_nonzero w1 _ _ _ H Hrc)).
  split; reflexivity.
Qed.

(** C4, amended.  When [git rev-parse HEAD~1] exits with a status other
    than zero and the diff of HEAD against the empty tree exits with
    status zero having printed [d], [get_diff] returns [d]; the second
    invocation names the empty tree by its fixed identifier of 40
    characters. *)
Theorem get_diff_empty_tree (w : World) (rc : Z) (out d : pystr) :
  proc w rev_parse_parent = Completed rc out -> rc <> 0%Z ->
  proc w diff_empty_head = Completed 0 d ->
  exists w', get_diff w = (Ok d, w')
    /\ events_since w w'
       = [EvSpawn ["git"; "rev-parse"; "HEAD~1"];
          EvSpawn ["git"; "diff"; "4b825dc642cb6eb9a060e54bf8d69288fbee4904"; "HEAD"]]
    /\ String.length empty_tree = 40.
Proof.
  intros Hrev Hrc Hdiff. eexists. split.
  - rewrite (get_diff_no_parent w _ _ Hrev Hrc).
    set (w1 := log _ w).
    assert (proc w1 diff_empty_head = Completed 0 d) as H1 by exact Hdiff.
    rewrite (bind_ok _ _ _ _ _ (check_output_zero w1 _ _ H1)). reflexivity.
  - split; [|reflexivity]. apply events_since_app. cbn. now rewrite <- app_assoc.
Qed.

Lemma get_diff_empty_tree_witness :
  exists w', get_diff w_first_commit = (Ok (lit "all of A"), w')
    /\ events_since w_first_commit w'
       = [EvSpawn ["git"; "rev-parse"; "HEAD~1"];
          EvSpawn ["git"; "diff"; "4b825dc642cb6eb9a060e54bf8d69288fbee4904"; "HEAD"]]
    /\ String.length empty_tree = 40.
Proof.
  refine (get_diff_empty_tree w_first_commit 128 [] (lit "all of A") eq_refl _ eq_refl).
  discriminate.
Defined.

(** C5, at the failing input.  HEAD~1 resolves, [git diff HEAD~1 HEAD]
    exits with status 128, and [get_diff] raises nothing: the [try] block
    spans both commands, so the handler written for a missing parent runs
    and its diff against the empty tree is returned. *)
Theorem get_diff_parent_diff_failure_caught :
  proc w_parent_diff_fails rev_parse_parent = Completed 0 (lit "3f2a9c1")
  /\ proc w_parent_diff_fails diff_parent_head = Completed 128 []
  /\ fst (get_diff w_parent_diff_fails) = Ok (lit "all of B")
  /\ events_since w_parent_diff_fails (snd (get_diff w_parent_diff_fails))
     = [EvSpawn rev_parse_parent; EvSpawn diff_parent_head; EvSpawn diff_empty_head].
Proof.
  split; [reflexivity|]. split; [reflexivity|].
  assert (128 <> 0)%Z as Hrc by discriminate.
  rewrite (get_diff_parent_diff_fails w_parent_diff_fails
             (lit "3f2a9c1") 128 [] eq_refl eq_refl Hrc).
  set (w2 := log (EvSpawn diff_parent_head) _).
  assert (proc w2 diff_empty_head = Completed 0 (lit "all of B")) as H by reflexivity.
  rewrite (bind_ok _ _ _ _ _ (check_output_zero w2 _ _ H)).
  split; reflexivity.
Qed.

(** C6. The prompt holds the diff verbatim between a fixed head and a
    fixed tail, and [review_code] makes one call: model ["gpt-4"], a
    system message naming an expert code reviewer, a user message that is
    the prompt. *)
Theorem review_code_request (diff : pystr) (w : World) :
  build_prompt diff = prompt_head ++ diff ++ prompt_tail
  /\ events_since w (snd (review_code diff w))
     = [EvApiCall
          (Request (lit "gpt-4")
             [Message (lit "system") (lit "You are an expert code reviewer.");
              Message (lit "user") (build_prompt diff)])].
Proof.
  split; [apply build_prompt_split|].
  rewrite review_code_world. apply events_since_log.
Qed.

(** C7. A response that lacks the shape [review_code] reads makes
    [review_code] raise a lookup error ([IndexError] when the list of
    choices is empty) after its single call; the exception reaches
    whatever called [review_code], whose continuation does not run. *)
Theorem review_code_malformed_response (diff : pystr) (w : World) (response : pyval) :
  api w (review_request diff) = ApiReturns response ->
  well_formed response = false ->
  exists e,
    lookup_failure e = true
    /\ (subscript response (IStr (lit "choices")) = Ok (PList []) -> e = IndexError)
    /\ review_code diff w = (Raise e, log (EvApiCall (review_request diff)) w)
    /\ (forall (B : Type) (k : pyval -> M B),
          (let* review := review_code diff in k review) w
          = (Raise e, log (EvApiCall (review_request diff)) w))
    /\ count is_api_call (events_since w (snd (review_code diff w))) = 1.
Proof.
  intros Hapi Hwf.
  destruct (first_choice_content_malformed response Hwf) as (e & He & Hl).
  pose proof (review_code_returns diff w response Hapi) as Hr. rewrite He in Hr.
  exists e. split; [assumption|]. split.
  { intros Hc. rewrite (first_choice_content_no_choice _ Hc) in He. now injection He. }
  split; [assumption|]. split.
  { intros B k. now apply bind_raise. }
  rewrite Hr. cbn [snd]. now rewrite events_since_log.
Qed.

Lemma review_code_malformed_response_witness :
  review_code (lit "added line X") w_no_choice
  = (Raise IndexError, log (EvApiCall (review_request (lit "added line X"))) w_no_choice).
Proof.
  destruct (review_code_malformed_response (lit "added line X") w_no_choice _ eq_refl eq_refl)
    as (e & _ & He & Hr & _).
  rewrite Hr. now rewrite (He eq_refl).
Defined.

(** C8. A run that ends in an exception raised before [file.write] is
    reached leaves the report as it was.  In particular, when
    [review_code] raises, [main] ends with that exception, no file
    operation has been made and the whole file system is unchanged. *)
Theorem main_failure_before_write (w : World) :
  (forall e w',
     main w = (Raise e, w') ->
     EvWrite file_path ∉ events_since w w' ->
     fs w' !! file_path = fs w !! file_path)
  /\ (forall diff w1 e w2,
        truthy (environ w !! "OPENAI_API_KEY") = true ->
        get_diff (log (EvPrint msg_obtaining) w) = (Ok diff, w1) ->
        review_code diff (log (EvPrint msg_generating) w1) = (Raise e, w2) ->
        main w = (Raise e, w2)
        /\ fs w2 = fs w
        /\ count is_file_op (events_since w w2) = 0).
Proof.
  split.
  - intros e w' H Hn.
    destruct (truthy (environ w !! "OPENAI_API_KEY")) eqn:Hkey.
    + rewrite (main_with_key _ Hkey) in H.
      apply after_check_post in H as (l & Ht & H). cbn in Ht.
      rewrite H; [reflexivity|]. intros Hin. apply Hn.
      rewrite (events_since_app w w' (EvPrint msg_obtaining :: l)).
      * now apply list_elem_of_further.
      * rewrite Ht, <- app_assoc. reflexivity.
    + rewrite (main_no_key _ Hkey) in H. now injection H as <- <-.
  - intros diff w1 e w2 Hkey Hd Hr.
    rewrite (main_with_key _ Hkey). unfold after_check.
    rewrite (bind_ok _ _ _ _ _ Hd).
    rewrite (bind_ok _ _ _ _ _ (print_post _ _)).
    rewrite (bind_raise _ _ _ _ _ Hr). split; [reflexivity|].
    apply get_diff_post in Hd as (l1 & -> & Hl1).
    apply review_code_post in Hr as ->. split; [reflexivity|].
    rewrite (events_since_app w _
               (EvPrint msg_obtaining :: l1
                ++ [EvPrint msg_generating; EvApiCall (review_request diff)])).
    + unfold count. cbn [List.filter is_file_op]. rewrite List.filter_app. cbn.
      rewrite length_app. cbn. rewrite Nat.add_0_r.
      clear -Hl1. induction l1 as [|[] l1 IH]; cbn in *; try discriminate; auto.
    + cbn. rewrite <- !app_assoc. reflexivity.
Qed.

Lemma main_failure_before_write_witness :
  main w_rate_limited
  = (Raise (OpenAIError RateLimitError), snd (main w_rate_limited))
  /\ fs (snd (main w_rate_limited)) !! file_path = fs w_rate_limited !! file_path
  /\ fs (snd (main w_rate_limited)) = fs w_rate_limited.
Proof.
  assert (main w_rate_limited
          = (Raise (OpenAIError RateLimitError), snd (main w_rate_limited))) as H
    by (vm_compute; reflexivity).
  destruct (main_failure_before_write w_rate_limited) as [Hany Hreview].
  split; [exact H|]. split.
  - apply (Hany _ _ H). vm_compute. intros Hin.
    repeat (apply elem_of_cons in Hin as [Hin|Hin]; [discriminate|]).
    now apply elem_of_nil in Hin.
  - refine (proj1 (proj2 (Hreview (lit "added line X")
                            (snd (get_diff (log (EvPrint msg_obtaining) w_rate_limited)))
                            (OpenAIError RateLimitError)
                            (snd (main w_rate_limited)) eq_refl _ _)));
      vm_compute; reflexivity.
Defined.




(** C10. When [git rev-parse HEAD~1] and then the diff against the empty
    tree both exit with a status other than zero, the second
    [CalledProcessError] leaves [get_diff]: nothing in the handler catches
    it.  A run that had found its credential ends with that exception and
    status 1, without a call to the endpoint and without touching a
    file. *)
Theorem get_diff_fallback_failure (w : World) (rc rc' : Z) (out out' : pystr) :
  proc w rev_parse_parent = Completed rc out -> rc <> 0%Z ->
  proc w diff_empty_head = Completed rc' out' -> rc' <> 0%Z ->
  (exists w', get_diff w = (Raise (CalledProcessError rc' diff_empty_head), w')
              /\ events_since w w' = [EvSpawn rev_parse_parent; EvSpawn diff_empty_head])
  /\ (truthy (environ w !! "OPENAI_API_KEY") = true ->
      exists w', main w = (Raise (CalledProcessError rc' diff_empty_head), w')
                 /\ fst (run w) = 1%Z
                 /\ fs w' = fs w
                 /\ count is_api_call (events_since w w') = 0
                 /\ count is_file_op (events_since w w') = 0).
Proof.
  intros Hrev Hrc Hdiff Hrc'.
  assert (forall w0 : World, proc w0 = proc w ->
            get_diff w0
            = (Raise (CalledProcessError rc' diff_empty_head),
               log (EvSpawn diff_empty_head) (log (EvSpawn rev_parse_parent) w0))) as Hget.
  { intros w0 Hp. rewrite <- Hp in Hrev, Hdiff.
    rewrite (get_diff_no_parent w0 _ _ Hrev Hrc).
    set (w1 := log _ w0).
    assert (proc w1 diff_empty_head = Completed rc' out') as H1 by exact Hdiff.
    now rewrite (bind_raise _ _ _ _ _ (check_output_nonzero w1 _ _ _ H1 Hrc')). }
  split.
  - eexists. split; [exact (Hget w eq_refl)|].
    apply events_since_app. cbn. now rewrite <- app_assoc.
  - intros Hkey.
    assert (main w = (Raise (CalledProcessError rc' diff_empty_head),
                      log (EvSpawn diff_empty_head)
                        (log (EvSpawn rev_parse_parent) (log (EvPrint msg_obtaining) w))))
      as Hmain.
    { rewrite (main_with_key _ Hkey). unfold after_check.
      apply bind_raise. now apply Hget. }
    eexists. split; [exact Hmain|]. split.
    { unfold run. now rewrite Hmain. }
    split; [reflexivity|].
    rewrite (events_since_app w _
               [EvPrint msg_obtaining; EvSpawn rev_parse_parent; EvSpawn diff_empty_head]).
    + split; reflexivity.
    + cbn. now rewrite <- !app_assoc.
Qed.

Lemma get_diff_fallback_failure_witness :
  fst (get_diff w_git_fatal) = Raise (CalledProcessError 128 diff_empty_head)
  /\ fst (run w_git_fatal) = 1%Z.
Proof.
  assert (128 <> 0)%Z as Hrc by discriminate.
  destruct (get_diff_fallback_failure w_git_fatal 128 128 [] []
              eq_refl Hrc eq_refl Hrc) as [(w' & Hg & _) Hm].
  destruct (Hm eq_refl) as (w'' & _ & Hr & _).
  split; [now rewrite Hg | exact Hr].
Defined.


(** * Further properties *)

Lemma check_output_eq argv w :
  check_output argv w = (returned argv (proc w argv), log (EvSpawn argv) w).
Proof.
  unfold check_output, returned, bind, emit. cbn.
  destruct (proc w argv) as [rc out|e]; [destruct (rc =? 0)%Z|]; reflexivity.
Qed.

Lemma returned_ok argv c out :
  returned argv c = Ok out <-> c = Completed 0 out.
Proof.
  unfold returned. split.
  - destruct c as [rc o|e]; [|discriminate].
    destruct (Z.eqb_spec rc 0) as [->|]; [|discriminate]. now intros [= ->].
  - now intros ->.
Qed.

Lemma get_diff_eq w :
  get_diff w
  = (fst (get_diff_of (proc w)),
     mkWorld (environ w) (proc w) (api w) (fs w) (trace w ++ snd (get_diff_of (proc w)))).
Proof.
  unfold get_diff, get_diff_of, try_except, bind, ret.
  rewrite (check_output_eq rev_parse_parent w).
  destruct (returned rev_parse_parent (proc w rev_parse_parent)) as [o1|e1].
  - rewrite (check_output_eq diff_parent_head). cbn [proc log].
    destruct (returned diff_parent_head (proc w diff_parent_head)) as [d|e2].
    + cbn. f_equal. same_world.
    + destruct e2; try (cbn; f_equal; same_world).
      rewrite (check_output_eq diff_empty_head). cbn [proc log].
      destruct (returned diff_empty_head (proc w diff_empty_head));
        cbn; f_equal; same_world.
  - destruct e1; try (cbn; f_equal; same_world).
    rewrite (check_output_eq diff_empty_head). cbn [proc log].
    destruct (returned diff_empty_head (proc w diff_empty_head));
      cbn; f_equal; same_world.
Qed.

Lemma get_diff_of_spawns p :
  let l := snd (get_diff_of p) in
  head l = Some (EvSpawn rev_parse_parent)
  /\ length l <= 3
  /\ forallb is_spawn l = true.
Proof.
  unfold get_diff_of.
  destruct (returned rev_parse_parent _) as [?|[]];
    try destruct (returned diff_parent_head _) as [?|[]];
    cbn; repeat split; lia.
Qed.

(** X1. [get_diff] runs [git] at least once and at most three times,
    [git rev-parse HEAD~1] first, and does nothing else: the environment,
    the files and the endpoint are as before, whatever [git] answers. *)
Theorem get_diff_only_runs_git (w : World) :
  exists l,
    snd (get_diff w) = mkWorld (environ w) (proc w) (api w) (fs w) (trace w ++ l)
    /\ head l = Some (EvSpawn rev_parse_parent)
    /\ length l <= 3
    /\ forallb is_spawn l = true.
Proof.
  exists (snd (get_diff_of (proc w))). rewrite get_diff_eq. cbn [snd].
  split; [reflexivity|]. apply get_diff_of_spawns.
Qed.

(** X2. What [get_diff] returns is always the output of a diff that
    exited with status zero: that of [git diff HEAD~1 HEAD] after a
    resolved parent, or that of the diff against the empty tree.  The
    output of [git rev-parse] is never returned as such. *)
Theorem get_diff_returns_a_diff (w : World) (d : pystr) :
  fst (get_diff w) = Ok d ->
  (exists out, proc w rev_parse_parent = Completed 0 out
               /\ proc w diff_parent_head = Completed 0 d)
  \/ proc w diff_empty_head = Completed 0 d.
Proof.
  rewrite get_diff_eq. cbn [fst]. unfold get_diff_of.
  destruct (returned rev_parse_parent _) as [o1|e1] eqn:H1.
  - apply returned_ok in H1.
    destruct (returned diff_parent_head _) as [d'|e2] eqn:H2.
    + apply returned_ok in H2. intros [= ->]. left. now exists o1.
    + destruct e2; cbn [fst]; try discriminate.
      intros H3. apply returned_ok in H3. now right.
  - destruct e1; cbn [fst]; try discriminate.
    intros H3. apply returned_ok in H3. now right.
Qed.

Lemma get_diff_returns_a_diff_witness :
  (exists out, proc w_first_commit rev_parse_parent = Completed 0 out
               /\ proc w_first_commit diff_parent_head = Completed 0 (lit "all of A"))
  \/ proc w_first_commit diff_empty_head = Completed 0 (lit "all of A").
Proof.
  apply (get_diff_returns_a_diff w_first_commit (lit "all of A")).
  vm_compute. reflexivity.
Defined.

(** X3. The handler of [get_diff] is for [CalledProcessError] alone.  Any
    other exception of the first command (no [git] on the path) leaves
    [get_diff] after that one invocation; any other exception of
    [git diff HEAD~1 HEAD] (output that cannot be decoded) leaves it after
    two.  The diff against the empty tree is not tried. *)
Theorem get_diff_other_exception (w : World) (e : exn) :
  is_called_process_error e = false ->
  (proc w rev_parse_parent = SpawnFailed e ->
   get_diff w = (Raise e, log (EvSpawn rev_parse_parent) w))
  /\ (forall out,
        proc w rev_parse_parent = Completed 0 out ->
        proc w diff_parent_head = SpawnFailed e ->
        get_diff w
        = (Raise e, log (EvSpawn diff_parent_head) (log (EvSpawn rev_parse_parent) w))).
Proof.
  intros He. split.
  - intros H1. rewrite get_diff_eq. unfold get_diff_of. rewrite H1. cbn [returned].
    destruct e; try discriminate; cbn; f_equal.
  - intros out H1 H2. rewrite get_diff_eq. unfold get_diff_of. rewrite H1, H2.
    cbn [returned Z.eqb].
    destruct e; try discriminate; cbn; f_equal; same_world.
Qed.

Lemma get_diff_other_exception_witness :
  get_diff w_no_git = (Raise FileNotFoundError, log (EvSpawn rev_parse_parent) w_no_git)
  /\ get_diff w_undecodable_diff
     = (Raise UnicodeDecodeError,
        log (EvSpawn diff_parent_head) (log (EvSpawn rev_parse_parent) w_undecodable_diff)).
Proof.
  split.
  - exact (proj1 (get_diff_other_exception w_no_git FileNotFoundError eq_refl) eq_refl).
  - exact (proj2 (get_diff_other_exception w_undecodable_diff UnicodeDecodeError eq_refl)
             (lit "3f2a9c1") eq_refl eq_refl).
Defined.

(** X4. A [CalledProcessError] that leaves [get_diff] is always that of
    the diff against the empty tree, with its status: the status and the
    command line of a failed [git rev-parse HEAD~1] or of a failed
    [git diff HEAD~1 HEAD] never reach the caller.  (The exceptions with
    which [subprocess] fails before the child exits are not
    [CalledProcessError]s.) *)
Theorem get_diff_error_is_of_fallback (w : World) (rc : Z) (cmd : list string) :
  (forall argv e, proc w argv = SpawnFailed e -> is_called_process_error e = false) ->
  fst (get_diff w) = Raise (CalledProcessError rc cmd) ->
  cmd = diff_empty_head
  /\ rc <> 0%Z
  /\ exists out, proc w diff_empty_head = Completed rc out.
Proof.
  intros Hspawn.
  assert (forall argv, returned argv (proc w argv) = Raise (CalledProcessError rc cmd) ->
                       cmd = argv /\ rc <> 0%Z /\ exists out, proc w argv = Completed rc out)
    as Hret.
  { intros argv. unfold returned.
    destruct (proc w argv) as [rc' out|e] eqn:Hp.
    - destruct (Z.eqb_spec rc' 0); [discriminate|].
      intros [= -> ->]. repeat split; [assumption|now exists out].
    - intros [= ->]. now apply Hspawn in Hp. }
  rewrite get_diff_eq. cbn [fst]. unfold get_diff_of.
  destruct (returned rev_parse_parent _) as [o1|e1] eqn:H1.
  - destruct (returned diff_parent_head _) as [d'|e2] eqn:H2; [discriminate|].
    destruct e2; cbn [fst]; try discriminate.
    intros H3. destruct (Hret _ H3) as (-> & ? & ?). auto.
  - destruct e1; cbn [fst]; try discriminate.
    intros H3. destruct (Hret _ H3) as (-> & ? & ?). auto.
Qed.

Lemma get_diff_error_is_of_fallback_witness :
  diff_empty_head = diff_empty_head
  /\ (128 <> 0)%Z
  /\ exists out, proc w_diffs_fatal diff_empty_head = Completed 128 out.
Proof.
  apply (get_diff_error_is_of_fallback w_diffs_fatal 128 diff_empty_head).
  - intros argv e. unfold w_diffs_fatal, git, fatal. cbn [proc].
    repeat case_decide; intros [= <-]; reflexivity.
  - vm_compute. reflexivity.
Defined.

Lemma os_makedirs_docs w :
  (forall data, fs w !! "docs" <> Some (File data)) ->
  os_makedirs "docs" true w
  = (Ok tt, mkWorld (environ w) (proc w) (api w)
              (<["docs" := Dir]> (fs w)) (trace w ++ [EvMakedirs "docs"])).
Proof.
  intros Hn. destruct (fs w !! "docs") as [[|data]|] eqn:Hd.
  - rewrite (os_makedirs_present _ _ Hd). unfold log. now rewrite (insert_id _ _ _ Hd).
  - now destruct (Hn data).
  - now rewrite (os_makedirs_absent _ _ Hd).
Qed.

Lemma open_w_report_is_dir w :
  fs w !! "docs" = Some Dir -> fs w !! file_path = Some Dir ->
  open_w file_path w = (Raise IsADirectoryError, log (EvOpen file_path) w).
Proof.
  intros Hd Hf. unfold open_w, bind, emit. cbn. rewrite dirname_file_path. cbn.
  now rewrite Hd, Hf.
Qed.

Lemma file_write_refused v e w :
  write_error v = Some e ->
  file_write file_path v w = (Raise e, log (EvWrite file_path) w).
Proof.
  unfold write_error, file_write, bind, emit, raise. cbn.
  destruct v as [| | |s| |]; try (now intros [= <-]).
  destruct (utf8_encode s); [discriminate | now intros [= <-]].
Qed.

Lemma save_review_eq v w :
  save_review v w
  = (fst (fst (save_review_of (fs w) v)),
     mkWorld (environ w) (proc w) (api w)
       (snd (fst (save_review_of (fs w) v)))
       (trace w ++ snd (save_review_of (fs w) v))).
Proof.
  unfold save_review, save_review_of.
  destruct (fs w !! "docs") as [[|data]|] eqn:Hd.
  2:{ now rewrite (bind_raise _ _ _ _ _ (os_makedirs_collision _ _ _ Hd)). }
  all: rewrite (bind_ok _ _ _ _ _ (os_makedirs_docs w ltac:(intros data; rewrite Hd; discriminate)));
    set (f1 := <["docs" := Dir]> (fs w));
    set (w1 := mkWorld _ _ _ f1 _);
    assert (fs w1 !! "docs" = Some Dir) as Hd1 by apply lookup_insert_eq;
    assert (fs w1 !! file_path = fs w !! file_path) as Hf1
      by (apply lookup_insert_ne; intros E; now apply file_path_not_docs);
    destruct (fs w !! file_path) as [[|data]|] eqn:Hf.
  1,4: now rewrite (bind_raise _ _ _ _ _ (open_w_report_is_dir w1 Hd1 Hf1)); f_equal; same_world.
  all: rewrite (bind_ok _ _ _ _ _ (open_w_ok w1 Hd1 ltac:(rewrite Hf1; discriminate)));
    destruct (write_error v) as [e|] eqn:Hw.
  all: try (rewrite (bind_raise _ _ _ _ _ (file_write_refused v e _ Hw));
            unfold write_error in Hw;
            destruct v as [| | |s| |]; try destruct (utf8_encode s);
            try discriminate; injection Hw as <-; cbn; f_equal; same_world).
  all: unfold write_error in Hw; destruct v as [| | |s| |]; try discriminate;
    destruct (utf8_encode s) as [bs|] eqn:He; try discriminate;
    rewrite (bind_ok _ _ _ _ _ (file_write_ok _ s bs He)), print_post;
    unfold log, set_fs; cbn; rewrite append_after_open, <- !app_assoc; reflexivity.
Qed.

Lemma review_code_eq diff w :
  review_code diff w
  = (review_code_of (api w) diff, log (EvApiCall (review_request diff)) w).
Proof.
  unfold review_code_of.
  destruct (api w (review_request diff)) as [response|e] eqn:H.
  - apply (review_code_returns _ _ _ H).
  - apply (review_code_raises _ _ _ H).
Qed.

Lemma main_eq w :
  main w
  = (fst (fst (main_of w)),
     mkWorld (environ w) (proc w) (api w)
       (snd (fst (main_of w))) (trace w ++ snd (main_of w))).
Proof.
  unfold main_of.
  destruct (truthy (environ w !! "OPENAI_API_KEY")) eqn:Hkey; cbn [negb].
  2:{ now rewrite (main_no_key _ Hkey). }
  rewrite (main_with_key _ Hkey). unfold after_check.
  set (w0 := log (EvPrint msg_obtaining) w).
  rewrite (surjective_pairing (get_diff_of (proc w))). cbn [fst snd].
  pose proof (get_diff_eq w0) as Hg. cbn [proc environ api fs trace w0 log] in Hg.
  destruct (fst (get_diff_of (proc w))) as [diff|e].
  2:{ rewrite (bind_raise _ _ _ _ _ Hg). cbn. f_equal. same_world. }
  rewrite (bind_ok _ _ _ _ _ Hg), (bind_ok _ _ _ _ _ (print_post _ _)).
  unfold bind at 1. rewrite review_code_eq. cbn [api log].
  destruct (review_code_of (api w) diff) as [review|e].
  2:{ f_equal. same_world. }
  unfold bind at 1. rewrite save_review_eq. cbn [fs environ proc api trace log].
  destruct (fst (fst (save_review_of (fs w) review))) as [[]|e].
  - rewrite print_post. cbn. f_equal. same_world.
  - cbn. f_equal. same_world.
Qed.



(** X6. The prompt is the diff with 242 characters around it, for a diff
    of any length: nothing is cut or escaped.  Two diffs that differ give
    prompts, and requests, that differ. *)
Theorem build_prompt_whole (d1 d2 : pystr) :
  length (build_prompt d1) = length d1 + 242
  /\ (build_prompt d1 = build_prompt d2 -> d1 = d2)
  /\ (review_request d1 = review_request d2 -> d1 = d2).
Proof.
  assert (build_prompt d1 = build_prompt d2 -> d1 = d2) as Hinj.
  { rewrite !build_prompt_split. intros H.
    apply app_inv_head in H. now apply app_inv_tail in H. }
  split; [|split; [exact Hinj|]].
  - rewrite build_prompt_split, !length_app.
    change (length prompt_head) with 194. change (length prompt_tail) with 48. lia.
  - unfold review_request. intros H. apply Hinj. congruence.
Qed.

Lemma build_prompt_whole_witness :
  length (build_prompt (lit "added line X")) = 12 + 242.
Proof.
  exact (proj1 (build_prompt_whole (lit "added line X") (lit "added line X"))).
Defined.

Lemma save_review_of_frame (f : gmap string node) (v : pyval) :
  let f' := snd (fst (save_review_of f v)) in
  (forall p, p <> "docs" -> p <> file_path -> f' !! p = f !! p)
  /\ (f !! "docs" = Some Dir -> f' !! "docs" = Some Dir)
  /\ (forall p, is_Some (f !! p) -> is_Some (f' !! p)).
Proof.
  assert (forall (g : gmap string node) q x p, is_Some (g !! p) -> is_Some (<[q := x]> g !! p))
    as Hkeep.
  { intros g q x p H. rewrite lookup_insert. case_decide; [eauto | assumption]. }
  unfold save_review_of.
  destruct (f !! "docs") as [[|data]|] eqn:Hd; [| cbn; auto |];
    (destruct (f !! file_path) as [[|data']|] eqn:Hf;
     [| destruct v as [| | |s| |]; try destruct (utf8_encode s)
      | destruct v as [| | |s| |]; try destruct (utf8_encode s)]);
    cbn [fst snd]; (split; [|split]);
    try (intros p Hp1 Hp2; now rewrite ?lookup_insert_ne by congruence);
    try (intros _;
         rewrite ?(lookup_insert_ne _ file_path "docs") by (intros E; now apply file_path_not_docs);
         apply lookup_insert_eq);
    try (intros p Hp; auto);
    try (intros E; discriminate E).
Qed.



Lemma main_of_frame (w : World) :
  let f' := snd (fst (main_of w)) in
  (forall p, p <> "docs" -> p <> file_path -> f' !! p = fs w !! p)
  /\ (fs w !! "docs" = Some Dir -> f' !! "docs" = Some Dir)
  /\ (forall p, is_Some (fs w !! p) -> is_Some (f' !! p)).
Proof.
  unfold main_of.
  destruct (negb _); [cbn; auto|].
  destruct (fst (get_diff_of (proc w))) as [diff|e]; [|cbn; auto].
  destruct (review_code_of (api w) diff) as [review|e]; [|cbn; auto].
  destruct (fst (fst (save_review_of (fs w) review))) as [[]|e];
    cbn [fst snd]; apply save_review_of_frame.
Qed.

(** X8. Whatever its outcome, a run leaves the environment alone, changes
    no file but [docs/review_report.md], creates at most the directory
    [docs], and removes nothing. *)
Theorem main_touches_only_the_report (w : World) :
  frame w (snd (main w))
  /\ forall p, is_Some (fs w !! p) -> is_Some (fs (snd (main w)) !! p).
Proof.
  rewrite main_eq. cbn [snd]. unfold frame. cbn [environ proc api fs].
  destruct (main_of_frame w) as (H1 & H2 & H3). auto 10.
Qed.

Lemma save_review_of_ok (f : gmap string node) (v : pyval) :
  fst (fst (save_review_of f v)) = Ok tt ->
  (f !! "docs" = None \/ f !! "docs" = Some Dir)
  /\ f !! file_path <> Some Dir
  /\ exists s bs, v = PStr s /\ utf8_encode s = Some bs
                  /\ snd (fst (save_review_of f v))
                     = <[file_path := File bs]> (<["docs" := Dir]> f).
Proof.
  unfold save_review_of.
  destruct (f !! "docs") as [[|data]|] eqn:Hd; [| discriminate |];
    (destruct (f !! file_path) as [[|data']|] eqn:Hf; [discriminate | |]);
    (destruct v as [| | |s| |]; try discriminate;
     destruct (utf8_encode s) as [bs|] eqn:He; [|discriminate]);
    intros _; (split; [auto|]); (split; [discriminate|]); now exists s, bs.
Qed.




Lemma run_eq (w : World) : run w = (exit_status (fst (main w)), snd (main w)).
Proof. unfold run. now destruct (main w). Qed.



Lemma main_of_ok (w : World) :
  fst (fst (main_of w)) = Ok tt ->
  truthy (environ w !! "OPENAI_API_KEY") = true
  /\ exists diff review,
       fst (get_diff_of (proc w)) = Ok diff
       /\ review_code_of (api w) diff = Ok review
       /\ fst (fst (save_review_of (fs w) review)) = Ok tt
       /\ snd (fst (main_of w)) = snd (fst (save_review_of (fs w) review)).
Proof.
  unfold main_of.
  destruct (truthy (environ w !! "OPENAI_API_KEY")); cbn [negb]; [|discriminate].
  destruct (fst (get_diff_of (proc w))) as [diff|e]; [|discriminate].
  destruct (review_code_of (api w) diff) as [review|e] eqn:Hr; [|discriminate].
  destruct (fst (fst (save_review_of (fs w) review))) as [[]|e] eqn:Hs; [|discriminate].
  intros _. split; [reflexivity|]. now exists diff, review.
Qed.

(** X11. A run that succeeded can be repeated: started again on the
    world it left, with [git] and the endpoint answering as before, [main]
    succeeds again and leaves every file as it found it. *)
Theorem main_rerun (w w1 : World) :
  main w = (Ok tt, w1) ->
  exists w2, main w1 = (Ok tt, w2) /\ fs w2 = fs w1.
Proof.
  intros H. rewrite main_eq in H. injection H as Hr Hw1.
  destruct (main_of_ok w Hr) as (Hkey & diff & review & Hd & Hrev & Hs & Hf).
  destruct (save_review_of_ok _ _ Hs) as (_ & _ & s & bs & -> & He & Hf').
  rewrite Hf, Hf' in Hw1.
  assert (environ w1 = environ w /\ proc w1 = proc w /\ api w1 = api w
          /\ fs w1 = <[file_path := File bs]> (<["docs" := Dir]> (fs w)))
    as (Henv & Hproc & Hapi & Hfs) by (rewrite <- Hw1; auto).
  assert (fs w1 !! "docs" = Some Dir) as Hd1.
  { rewrite Hfs, lookup_insert_ne by (intros E; now apply file_path_not_docs).
    apply lookup_insert_eq. }
  assert (fs w1 !! file_path = Some (File bs)) as Hp1
    by (rewrite Hfs; apply lookup_insert_eq).
  assert (fst (main_of w1) = (Ok tt, fs w1)) as H2.
  { unfold main_of. rewrite Henv, Hproc, Hapi, Hkey, Hd, Hrev. cbn [negb].
    unfold save_review_of. rewrite Hd1, Hp1, He. cbn [fst snd]. f_equal.
    rewrite (insert_id (fs w1) "docs" Dir Hd1). now apply insert_id. }
  rewrite (main_eq w1), H2. cbn [fst snd]. eexists. split; reflexivity.
Qed.

Lemma main_rerun_witness :
  exists w2, main (snd (main w_two_commits)) = (Ok tt, w2)
             /\ fs w2 = fs (snd (main w_two_commits)).
Proof.
  apply (main_rerun w_two_commits). vm_compute. reflexivity.
Defined.

Lemma first_choice_content_raise response e :
  first_choice_content response = Raise e -> lookup_failure e = true.
Proof.
  intros H. destruct (well_formed response) eqn:Hwf.
  - destruct (first_choice_content_well_formed _ Hwf) as [v Hv]. congruence.
  - destruct (first_choice_content_malformed _ Hwf) as (e' & He' & Hl). congruence.
Qed.

Lemma main_of_raise (w : World) (e : exn) :
  (forall argv e, proc w argv = SpawnFailed e -> plain e = true) ->
  (forall req e, api w req = ApiRaises e -> plain e = true) ->
  fst (fst (main_of w)) = Raise e ->
  e = SystemExit 1 \/ plain e = true.
Proof.
  intros Hproc Hapi.
  assert (forall argv e, returned argv (proc w argv) = Raise e -> plain e = true) as Hret.
  { intros argv e0. unfold returned. destruct (proc w argv) as [rc out|e1] eqn:Hp.
    - destruct (rc =? 0)%Z; [discriminate | now intros [= <-]].
    - intros [= <-]. now apply Hproc in Hp. }
  unfold main_of.
  destruct (truthy (environ w !! "OPENAI_API_KEY")); cbn [negb];
    [|intros [= <-]; now left].
  right. revert H.
  destruct (fst (get_diff_of (proc w))) as [diff|e1] eqn:Hd.
  - unfold review_code_of.
    destruct (api w (review_request diff)) as [response|e2] eqn:Ha.
    + destruct (first_choice_content response) as [review|e3] eqn:Hc.
      * unfold save_review_of.
        destruct (fs w !! "docs") as [[|data]|];
          try (now intros [= <-]);
          (destruct (fs w !! file_path) as [[|data']|]; try (now intros [= <-]);
           destruct review as [| | |s| |]; try destruct (utf8_encode s);
           cbn [fst snd]; try discriminate; now intros [= <-]).
      * cbn [fst]. intros [= <-]. apply first_choice_content_raise in Hc.
        now destruct e3.
    + cbn [fst]. intros [= <-]. now apply Hapi in Ha.
  - cbn [fst]. intros [= <-]. revert Hd. unfold get_diff_of.
    destruct (returned rev_parse_parent _) as [o1|e2] eqn:H1.
    + destruct (returned diff_parent_head _) as [d'|e3] eqn:H2; [discriminate|].
      destruct e3; cbn [fst]; try (intros [= <-]; now apply Hret in H2).
      intros H3. now apply Hret in H3.
    + destruct e2; cbn [fst]; try (intros [= <-]; now apply Hret in H1).
      intros H3. now apply Hret in H3.
Qed.

(** X12. The status of a run is 0 or 1, and it is 0 exactly when [main]
    returned: every exception, whichever step raised it, ends the run with
    status 1.  (The exceptions [subprocess] and the endpoint raise are not
    [SystemExit].) *)
Theorem run_status (w : World) :
  (forall argv e, proc w argv = SpawnFailed e -> plain e = true) ->
  (forall req e, api w req = ApiRaises e -> plain e = true) ->
  (fst (run w) = 0%Z \/ fst (run w) = 1%Z)
  /\ (fst (run w) = 0%Z <-> fst (main w) = Ok tt).
Proof.
  intros Hproc Hapi. rewrite run_eq. cbn [fst].
  pose proof (main_of_raise w) as Hraise. rewrite main_eq. cbn [fst].
  destruct (fst (fst (main_of w))) as [[]|e]; cbn [exit_status].
  - split; [now left|]. split; reflexivity.
  - destruct (Hraise e Hproc Hapi eq_refl) as [-> | Hp].
    + split; [now right|]. split; discriminate.
    + destruct e; try discriminate; (split; [now right|]); split; discriminate.
Qed.

Lemma run_status_witness :
  (fst (run w_rate_limited) = 0%Z \/ fst (run w_rate_limited) = 1%Z)
  /\ (fst (run w_rate_limited) = 0%Z <-> fst (main w_rate_limited) = Ok tt).
Proof.
  apply (run_status w_rate_limited).
  - intros argv e. unfold w_rate_limited, git_two_commits, git. cbn [proc].
    repeat case_decide; intros [= <-]; reflexivity.
  - intros req e. cbn [api w_rate_limited]. intros [= <-]. reflexivity.
Defined.

Lemma count_app (p : event -> bool) (a b : list event) :
  count p (a ++ b) = count p a + count p b.
Proof. unfold count. now rewrite List.filter_app, length_app. Qed.

Lemma count_spawns (l : list event) :
  forallb is_spawn l = true ->
  count is_spawn l = length l /\ count is_api_call l = 0 /\ count is_file_op l = 0.
Proof.
  unfold count. induction l as [|[] l IH]; cbn; try discriminate; [easy|].
  intros H. destruct (IH H) as (-> & -> & ->). easy.
Qed.

Lemma save_review_of_calls (f : gmap string node) (v : pyval) :
  let l := snd (save_review_of f v) in
  match fst (fst (save_review_of f v)) with
  | Ok _ => l = [EvMakedirs "docs"; EvOpen file_path; EvWrite file_path; EvPrint saved_line]
  | Raise _ =>
      l = [EvMakedirs "docs"]
      \/ l = [EvMakedirs "docs"; EvOpen file_path]
      \/ l = [EvMakedirs "docs"; EvOpen file_path; EvWrite file_path]
  end.
Proof.
  unfold save_review_of.
  destruct (f !! "docs") as [[|data]|]; [| cbn; auto |];
    (destruct (f !! file_path) as [[|data']|]; [cbn; auto | |]);
    destruct v as [| | |s| |]; try destruct (utf8_encode s); cbn; auto.
Qed.

(** X13. Every run, whatever its outcome, is an initial part of one
    schedule: a line, one to three [git] commands, a line, one call to the
    endpoint, [os.makedirs], [open], [file.write], two lines; or it is the
    single line about the missing credential.  So a run has at most three
    [git] invocations and at most one call to the endpoint, and it touches
    the file system only after [git] and the endpoint have been asked. *)
Theorem main_schedule (w : World) :
  let t := events_since w (snd (main w)) in
  (t = [EvPrint msg_no_key]
   \/ exists spawns req,
        forallb is_spawn spawns = true /\ length spawns <= 3
        /\ t `prefix_of` schedule spawns req)
  /\ count is_spawn t <= 3
  /\ count is_api_call t <= 1
  /\ (0 < count is_file_op t -> count is_api_call t = 1 /\ 0 < count is_spawn t).
Proof.
  cbv zeta. rewrite main_eq. cbn [snd].
  rewrite (events_since_app w _ (snd (main_of w))) by reflexivity.
  unfold main_of.
  destruct (truthy (environ w !! "OPENAI_API_KEY")); cbn [negb];
    [|cbn; split; [now left | repeat split; lia]].
  destruct (get_diff_of_spawns (proc w)) as (Hhead & Hlen & Hsp).
  set (l1 := snd (get_diff_of (proc w))) in *.
  destruct (count_spawns l1 Hsp) as (Hc1 & Hc2 & Hc3).
  assert (0 < length l1) as Hpos by (destruct l1; [discriminate | cbn; lia]).
  destruct (fst (get_diff_of (proc w))) as [diff|e]; cbn [snd].
  2:{ split.
      - right. exists l1, (review_request []). repeat split; try assumption.
        unfold schedule. now apply prefix_cons, prefix_app_r.
      - change (EvPrint msg_obtaining :: l1) with ([EvPrint msg_obtaining] ++ l1).
        rewrite !count_app, Hc1, Hc2, Hc3. cbn. repeat split; lia. }
  set (asked := EvPrint msg_obtaining :: l1
                ++ [EvPrint msg_generating; EvApiCall (review_request diff)]).
  assert (count is_spawn asked = length l1 /\ count is_api_call asked = 1
          /\ count is_file_op asked = 0) as (Ha1 & Ha2 & Ha3).
  { unfold asked.
    change (EvPrint msg_obtaining :: l1 ++ ?k) with ([EvPrint msg_obtaining] ++ l1 ++ k).
    rewrite !count_app, Hc1, Hc2, Hc3. cbn. lia. }
  assert (forall k, asked ++ k = EvPrint msg_obtaining :: l1
                      ++ [EvPrint msg_generating; EvApiCall (review_request diff)] ++ k)
    as Hasked.
  { intros k. unfold asked. cbn. now rewrite <- app_assoc. }
  destruct (review_code_of (api w) diff) as [review|e]; cbn [snd].
  2:{ split.
      - right. exists l1, (review_request diff). repeat split; try assumption.
        unfold schedule.
        eexists. rewrite Hasked. reflexivity.
      - rewrite Ha1, Ha2, Ha3. repeat split; lia. }
  pose proof (save_review_of_calls (fs w) review) as Hcalls. cbv zeta in Hcalls.
  destruct (fst (fst (save_review_of (fs w) review))) as [[]|e]; cbn [snd].
  - rewrite Hcalls. split.
    + right. exists l1, (review_request diff). repeat split; try assumption.
      unfold schedule. exists []. rewrite app_nil_r, Hasked. reflexivity.
    + rewrite !count_app, Ha1, Ha2, Ha3. cbn. repeat split; lia.
  - split.
    + right. exists l1, (review_request diff). repeat split; try assumption.
      unfold schedule.
      destruct Hcalls as [-> | [-> | ->]]; eexists; rewrite <- app_assoc, Hasked; reflexivity.
    + destruct Hcalls as [-> | [-> | ->]];
        rewrite !count_app, Ha1, Ha2, Ha3; cbn; repeat split; lia.
Qed.



Lemma spawns_no_api_call (l : list event) (req : request) :
  forallb is_spawn l = true -> EvApiCall req ∉ l.
Proof.
  intros H Hin. rewrite forallb_forall in H.
  apply list_elem_of_In in Hin. now apply H in Hin.
Qed.

(** X14. The endpoint is asked only when the credential is there and
    [get_diff] has returned, and the request then made is the one built
    from the diff that [get_diff] returned. *)
Theorem main_asks_about_the_diff (w : World) (req : request) :
  EvApiCall req ∈ events_since w (snd (main w)) ->
  truthy (environ w !! "OPENAI_API_KEY") = true
  /\ exists diff, fst (get_diff w) = Ok diff /\ req = review_request diff.
Proof.
  rewrite main_eq, get_diff_eq. cbn [fst snd].
  rewrite (events_since_app w _ (snd (main_of w))) by reflexivity.
  unfold main_of.
  destruct (truthy (environ w !! "OPENAI_API_KEY")); cbn [negb snd].
  2:{ intros Hin. apply elem_of_cons in Hin as [Hin|Hin]; [discriminate|].
      now apply elem_of_nil in Hin. }
  destruct (get_diff_of_spawns (proc w)) as (_ & _ & Hsp).
  set (l1 := snd (get_diff_of (proc w))) in *.
  pose proof (spawns_no_api_call l1 req Hsp) as Hl1.
  assert (forall k, (forall x, x ∈ k -> is_api_call x = false) ->
            EvApiCall req ∈ EvPrint msg_obtaining :: l1
              ++ [EvPrint msg_generating; EvApiCall (review_request (default [] (match fst (get_diff_of (proc w)) with Ok d => Some d | _ => None end)))] ++ k ->
            req = review_request (default [] (match fst (get_diff_of (proc w)) with Ok d => Some d | _ => None end)))
    as Hfind.
  { intros k Hk Hin.
    apply elem_of_cons in Hin as [Hin|Hin]; [discriminate|].
    apply elem_of_app in Hin as [Hin|Hin]; [now destruct Hl1|].
    apply elem_of_cons in Hin as [Hin|Hin]; [discriminate|].
    apply elem_of_cons in Hin as [Hin|Hin]; [now injection Hin|].
    apply Hk in Hin. discriminate. }
  destruct (fst (get_diff_of (proc w))) as [diff|e]; cbn [snd default] in *.
  2:{ intros Hin. apply elem_of_cons in Hin as [Hin|Hin]; [discriminate|].
      now destruct Hl1. }
  intros Hin. split; [reflexivity|]. exists diff. split; [reflexivity|].
  destruct (review_code_of (api w) diff) as [review|e]; cbn [snd] in Hin.
  2:{ apply (Hfind []); [intros x Hx; now apply elem_of_nil in Hx|].
      now rewrite app_nil_r. }
  pose proof (save_review_of_calls (fs w) review) as Hcalls. cbv zeta in Hcalls.
  destruct (fst (fst (save_review_of (fs w) review))) as [[]|e]; cbn [snd] in Hin.
  - rewrite Hcalls in Hin.
    apply (Hfind ([EvMakedirs "docs"; EvOpen file_path; EvWrite file_path;
                   EvPrint saved_line] ++ [EvPrint msg_done])).
    + intros x Hx. cbn in Hx.
      repeat (apply elem_of_cons in Hx as [->|Hx]; [reflexivity|]).
      now apply elem_of_nil in Hx.
    + cbn in Hin |- *. now rewrite <- app_assoc in Hin.
  - apply (Hfind (snd (save_review_of (fs w) review))).
    + intros x Hx.
      destruct Hcalls as [Hl | [Hl | Hl]]; rewrite Hl in Hx;
        repeat (apply elem_of_cons in Hx as [->|Hx]; [reflexivity|]);
        now apply elem_of_nil in Hx.
    + cbn in Hin |- *. now rewrite <- app_assoc in Hin.
Qed.

Lemma main_asks_about_the_diff_witness :
  truthy (environ w_first_commit !! "OPENAI_API_KEY") = true
  /\ exists diff, fst (get_diff w_first_commit) = Ok diff
                  /\ review_request (lit "all of A") = review_request diff.
Proof.
  apply (main_asks_about_the_diff w_first_commit (review_request (lit "all of A"))).
  vm_compute. do 4 apply list_elem_of_further. apply list_elem_of_here.
Defined.





